(** * Wochenzettel: the timesheet aggregation engine, verified

    A shallow embedding of [src/index.tsx] (time arithmetic and time
    shorthand, entry classification, summary metrics, display order,
    entry validation, pauses, deployments, saved locations, document
    import) together with the properties stated about it.

    Modelling conventions.
    - A JavaScript [number] is [NaN] or a double, held as the rational
      it is exactly; every sum, difference, product and quotient is
      rounded to the nearest double (binary64, ties to even), in the
      order the code computes them. The control flow around NaN
      (comparisons are false, [x || 0] replaces it) is kept. The two
      zeros are one number, and results of magnitude [2^1024] and more,
      JavaScript's infinities, are not modelled.
    - Strings are byte strings; [trim] and [toLowerCase] act on ASCII.
    - [Set<string>] is a [gset string]; [Map<string, number>] is an
      association list in insertion order, as [Map] iterates.
    - [Array.prototype.sort] is a stable insertion sort. The language
      fixes the result of a sort only for a comparator that is
      consistent on the elements; the theorems use the sort for its
      result being a reordering of the array, and on one array that
      the comparator accepts as it stands.
    - [localeCompare] is the code-unit order, which collation agrees
      with on strings of digits and colons of one length, such as
      zero-padded [HH:MM] times.
    - [Date] parsing covers [HH:MM] and [YYYY-MM-DD].
    - The ambient [new Date()] and [Date.now()] are explicit arguments. *)

From Stdlib Require Import QArith Qcanon Qround Ascii String.
From stdpp Require Import base numbers list strings gmap sorting pretty.

#[local] Set Warnings "-clear-no-such-hyp,-register-all".

Local Open Scope Z_scope.

(** ** JavaScript numbers *)

Module Num.

(** *** Rounding to binary64

    Every arithmetic result is rounded to the nearest double, a tie
    going to the even significand. *)

(** [2^k] for an integer [k] of either sign. *)
Definition pow2 (k : Z) : Qc :=
  if 0 <=? k then Qc_of_Z (2 ^ k) else (1 / Qc_of_Z (2 ^ (- k)))%Qc.

(** The integer nearest to [N / D], a tie going to the even one. *)
Definition nearestEven (N D : Z) : Z :=
  let n := N / D in
  let r := N mod D in
  match 2 * r ?= D with
  | Lt => n
  | Gt => n + 1
  | Eq => if Z.even n then n else n + 1
  end.

(** The [e] with [2^e <= a / b < 2^(e + 1)], for positive [a] and [b]. *)
Definition floorLog2 (a b : Z) : Z :=
  let e := Z.log2 a - Z.log2 b in
  if (if 0 <=? e then b * 2 ^ e <=? a else b <=? a * 2 ^ (- e)) then e else e - 1.

(** The double nearest to [a / b], for positive [a] and [b]: 53
    significant bits, fewer below [2^-1022]. *)
Definition binary64pos (a b : Z) : Qc :=
  let e := floorLog2 a b in
  let ex := Z.max (e - 52) (-1074) in
  let n := if 0 <=? ex then nearestEven a (b * 2 ^ ex)
           else nearestEven (a * 2 ^ (- ex)) b in
  (Qc_of_Z n * pow2 ex)%Qc.

Definition binary64 (q : Qc) : Qc :=
  match Qnum q with
  | Z0 => 0%Qc
  | Zpos a => binary64pos (Zpos a) (Zpos (Qden q))
  | Zneg a => (- binary64pos (Zpos a) (Zpos (Qden q)))%Qc
  end.

(** *** Numbers

    A number is NaN or a double, given by its exact value. *)
Inductive number : Type :=
| NaN
| Dbl (q : Qc).

#[global] Instance number_eq_dec : EqDecision number.
Proof. solve_decision. Defined.

(** The number a literal, a quotient or a JSON number denotes: the
    double nearest to [q]. *)
Definition Fin (q : Qc) : number := Dbl (binary64 q).

Definition ofZ (z : Z) : number := Fin (Qc_of_Z z).

Definition zero : number := ofZ 0.

(** [a + b]; adding 0 is exact. *)
Definition add (a b : number) : number :=
  match a, b with
  | Dbl x, Dbl y =>
      if bool_decide (x = 0%Qc) then b
      else if bool_decide (y = 0%Qc) then a
      else Fin (x + y)%Qc
  | _, _ => NaN
  end.

(** [a - b] *)
Definition sub (a b : number) : number :=
  match a, b with
  | Dbl x, Dbl y => Fin (x - y)%Qc
  | _, _ => NaN
  end.

(** [a / z] for a non-zero integer literal [z] *)
Definition divZ (a : number) (z : Z) : number :=
  match a with
  | Dbl x => Fin (x / Qc_of_Z z)%Qc
  | NaN => NaN
  end.

(** [a * z] for an integer literal [z] *)
Definition mulZ (a : number) (z : Z) : number :=
  match a with
  | Dbl x => Fin (x * Qc_of_Z z)%Qc
  | NaN => NaN
  end.

(** [a <= b]: false as soon as one side is NaN *)
Definition leb (a b : number) : bool :=
  match a, b with
  | Dbl x, Dbl y => bool_decide (x ≤ y)%Qc
  | _, _ => false
  end.

(** [a < b] *)
Definition ltb (a b : number) : bool :=
  match a, b with
  | Dbl x, Dbl y => bool_decide (x < y)%Qc
  | _, _ => false
  end.

(** [a > b] *)
Definition gtb (a b : number) : bool := ltb b a.

(** [Math.max(a, b)]: NaN when an argument is *)
Definition max (a b : number) : number :=
  match a, b with
  | Dbl x, Dbl y => if bool_decide (x ≤ y)%Qc then Dbl y else Dbl x
  | _, _ => NaN
  end.

(** [Math.abs(a)] *)
Definition abs (a : number) : number :=
  match a with
  | Dbl x => if bool_decide (x < 0)%Qc then Dbl (- x)%Qc else Dbl x
  | NaN => NaN
  end.

(** [Math.round(a)]: the nearest integer, a tie going towards +infinity *)
Definition round (a : number) : number :=
  match a with
  | Dbl x => ofZ (Qfloor (x + Q2Qc (1 # 2))%Qc)
  | NaN => NaN
  end.

(** truthiness of a number: neither 0 nor NaN *)
Definition truthy (a : number) : bool :=
  match a with
  | Dbl x => negb (bool_decide (x = 0%Qc))
  | NaN => false
  end.

(** [v || 0] where [v] is a number or [undefined] *)
Definition orZero (v : option number) : number :=
  match v with
  | Some a => if truthy a then a else zero
  | None => zero
  end.

Definition isNaN (a : number) : bool :=
  match a with NaN => true | Dbl _ => false end.

End Num.

Export Num.

#[global] Arguments Num.Fin : simpl never.
#[global] Arguments Num.zero : simpl never.
#[global] Arguments Num.ofZ : simpl never.
#[global] Arguments Num.add : simpl never.
#[global] Arguments Num.sub : simpl never.
#[global] Arguments Num.orZero : simpl never.

Declare Scope num_scope.
Delimit Scope num_scope with num.
Bind Scope num_scope with number.
Infix "+" := Num.add : num_scope.
Infix "-" := Num.sub : num_scope.

(** ** Strings *)

Module Str.

(** truthiness of a string: non-empty *)
Definition nonEmpty (s : string) : bool :=
  match s with EmptyString => false | String _ _ => true end.

Definition isWhite (c : ascii) : bool :=
  let n := nat_of_ascii c in
  ((9 <=? n)%nat && (n <=? 13)%nat) || (n =? 32)%nat.

Fixpoint trimStart (s : string) : string :=
  match s with
  | EmptyString => EmptyString
  | String c r => if isWhite c then trimStart r else s
  end.

Fixpoint trimEnd (s : string) : string :=
  match s with
  | EmptyString => EmptyString
  | String c r =>
      match trimEnd r with
      | EmptyString => if isWhite c then EmptyString else String c EmptyString
      | r' => String c r'
      end
  end.

(** [s.trim()] *)
Definition trim (s : string) : string := trimEnd (trimStart s).

Definition lowerChar (c : ascii) : ascii :=
  let n := nat_of_ascii c in
  if ((65 <=? n)%nat && (n <=? 90)%nat)%bool then ascii_of_nat (n + 32) else c.

(** [s.toLowerCase()] *)
Fixpoint toLowerCase (s : string) : string :=
  match s with
  | EmptyString => EmptyString
  | String c r => String (lowerChar c) (toLowerCase r)
  end.

(** [s.startsWith(p)] *)
Definition startsWith (s p : string) : bool := String.prefix p s.

(** [s.padStart(2, '0')] *)
Definition padStart2 (s : string) : string :=
  match String.length s with
  | O => "00"
  | S O => String "0" s
  | _ => s
  end.

(** value of a decimal digit *)
Definition digit (c : ascii) : option Z :=
  let n := nat_of_ascii c in
  if ((48 <=? n)%nat && (n <=? 57)%nat)%bool then Some (Z.of_nat n - 48) else None.

(** [a.localeCompare(b)]. The collation is the runtime's; the model is
    the code-unit order, which it agrees with on strings of digits and
    colons of one length, such as zero-padded [HH:MM] times. On other
    strings (letters of both cases, strings of different lengths) the
    two differ. *)
Definition localeCompare (a b : string) : Z :=
  match String.compare a b with
  | Lt => -1
  | Eq => 0
  | Gt => 1
  end.

End Str.

(** ** Interfaces *)

Record Deployment : Type := mkDeployment {
  dep_id : string;
  dep_location : string;
  dep_startTime : string;
  dep_endTime : string
}.

Record Entry : Type := mkEntry {
  id : string;
  date : string;
  location : string;
  startTime : string;
  endTime : string;
  isChildSick : option bool;
  deployments : option (list Deployment)
}.

Record SummaryMetrics : Type := mkSummaryMetrics {
  totalOvertime : number;
  currentMonthOvertime : number;
  totalWorkHours : number;
  vacationDays : nat;
  sickDays : nat;
  onCallDays : nat
}.

#[global] Instance Deployment_eq_dec : EqDecision Deployment.
Proof. solve_decision. Defined.

#[global] Instance Entry_eq_dec : EqDecision Entry.
Proof. solve_decision. Defined.

(** ** Time arithmetic *)

(** The two digits of [HH] or [MM]. *)
Definition twoDigits (a b : ascii) : option Z :=
  match Str.digit a, Str.digit b with
  | Some x, Some y => Some (10 * x + y)
  | _, _ => None
  end.

(** Minutes after midnight denoted by [HH:MM] inside the ISO date-time
    [1970-01-01THH:MM:00]: hours 00..23 with minutes 00..59, or 24:00. *)
Definition parseHHMM (s : string) : option Z :=
  match s with
  | String h1 (String h2 (String ":" (String m1 (String m2 EmptyString)))) =>
      match twoDigits h1 h2, twoDigits m1 m2 with
      | Some h, Some m =>
          if (h <=? 23) && (m <=? 59) then Some (60 * h + m)
          else if (h =? 24) && (m =? 0) then Some (60 * 24)
          else None
      | _, _ => None
      end
  | _ => None
  end.

(** [new Date(`1970-01-01T${t}:00`).getTime()]: milliseconds on the
    reference day (the constant offset of local time cancels in every
    use), NaN for an Invalid Date. *)
Definition timeOnReferenceDay (t : string) : number :=
  match parseHHMM t with
  | Some m => Num.ofZ (m * 60000)
  | None => NaN
  end.

Definition calculateHours (start end_ : string) : number :=
  if negb (Str.nonEmpty start) || negb (Str.nonEmpty end_) then Num.zero
  else
    let startTime := timeOnReferenceDay start in
    let endTime := timeOnReferenceDay end_ in
    if Num.leb endTime startTime then Num.zero
    else
      let diff := (endTime - startTime)%num in
      let hours := Num.divZ diff (1000 * 60 * 60) in
      Num.max Num.zero hours.

(** ** Formatting hours *)

(** [Math.round(hours * 100) / 100] *)
Definition roundedHours (hours : number) : number :=
  Num.divZ (Num.round (Num.mulZ hours 100)) 100.

(** A dot between groups of three digits, counted from the right. *)
Fixpoint groupFromRight (digits : list ascii) : list ascii :=
  match digits with
  | a :: b :: c :: rest =>
      match rest with
      | [] => digits
      | _ => a :: b :: c :: "."%char :: groupFromRight rest
      end
  | _ => digits
  end.

Definition groupThousands (s : string) : string :=
  string_of_list_ascii (rev (groupFromRight (rev (list_ascii_of_string s)))).

(** A non-negative number of hundredths in German notation: grouped
    integer part, a comma, two decimals. *)
Definition formatCents (cents : Z) : string :=
  groupThousands (pretty (cents / 100)) +:+ "," +:+ Str.padStart2 (pretty (cents mod 100)).

(** [new Intl.NumberFormat('de-DE', { minimumFractionDigits: 2,
    maximumFractionDigits: 2 }).format(x)] *)
Definition formatDE (x : number) : string :=
  match x with
  | NaN => "NaN"
  | Dbl q =>
      if bool_decide (q < 0)%Qc
      then "-" +:+ formatCents (Qfloor (- q * Qc_of_Z 100 + Q2Qc (1 # 2))%Qc)
      else formatCents (Qfloor (q * Qc_of_Z 100 + Q2Qc (1 # 2))%Qc)
  end.

Definition formatHours (hours : number) : string :=
  let roundedHours := roundedHours hours in
  let formattedNumber := formatDE (Num.abs roundedHours) in
  let sign := if Num.ltb roundedHours Num.zero then "-" else "+" in
  sign +:+ " " +:+ formattedNumber.


(** ** Entry classification *)

Inductive Kind : Type := Vacation | Sick | OnCall | Pause | Regular.

#[global] Instance Kind_eq_dec : EqDecision Kind.
Proof. solve_decision. Defined.

(** [location.trim().toLowerCase()] *)
Definition locationLower (location : string) : string :=
  Str.toLowerCase (Str.trim location).

(** The kind is never stored: every use site compares the normalised
    location with the reserved words. *)
Definition classify (location : string) : Kind :=
  let l := locationLower location in
  if String.eqb l "urlaub" then Vacation
  else if String.eqb l "krank" then Sick
  else if String.eqb l "bereitschaft" then OnCall
  else if String.eqb l "pause" then Pause
  else Regular.

Definition kind (entry : Entry) : Kind := classify (location entry).

(** ** Display order *)

(** [a !== b] on numbers *)
Definition strictNe (a b : number) : bool :=
  match a, b with
  | Dbl x, Dbl y => negb (bool_decide (x = y))
  | _, _ => true
  end.

Definition isLeapYear (y : Z) : bool :=
  ((y mod 4 =? 0) && negb (y mod 100 =? 0)) || (y mod 400 =? 0).

Definition daysInMonth (y m : Z) : Z :=
  if m =? 2 then (if isLeapYear y then 29 else 28)
  else if (m =? 4) || (m =? 6) || (m =? 9) || (m =? 11) then 30
  else 31.

(** Days from 1970-01-01 to the civil date [y]-[m]-[d]. *)
Definition daysFromCivil (y m d : Z) : Z :=
  let y' := if m <=? 2 then y - 1 else y in
  let era := y' / 400 in
  let yoe := y' - era * 400 in
  let mp := if m <=? 2 then m + 9 else m - 3 in
  let doy := (153 * mp + 2) / 5 + d - 1 in
  let doe := yoe * 365 + yoe / 4 - yoe / 100 + doy in
  era * 146097 + doe - 719468.

Definition fourDigits (a b c d : ascii) : option Z :=
  match twoDigits a b, twoDigits c d with
  | Some x, Some y => Some (100 * x + y)
  | _, _ => None
  end.

(** The time value of the date-only form [YYYY-MM-DD], which is UTC midnight
    of that day; every other string is taken as an Invalid Date. *)
Definition dateValue (s : string) : option Z :=
  match s with
  | String y1 (String y2 (String y3 (String y4 (String "-"
      (String m1 (String m2 (String "-" (String d1 (String d2 EmptyString))))))))) =>
      match fourDigits y1 y2 y3 y4, twoDigits m1 m2, twoDigits d1 d2 with
      | Some y, Some m, Some d =>
          if (1 <=? m) && (m <=? 12) && (1 <=? d) && (d <=? daysInMonth y m)
          then Some (daysFromCivil y m d * 86400000)
          else None
      | _, _, _ => None
      end
  | _ => None
  end.

(** [new Date(s).getTime()] *)
Definition dateTime (s : string) : number :=
  match dateValue s with
  | Some ms => Num.ofZ ms
  | None => NaN
  end.

Definition isBereitschaft (entry : Entry) : bool :=
  String.eqb (locationLower (location entry)) "bereitschaft".

(** The comparator handed to [sort]. *)
Definition compareEntries (a b : Entry) : number :=
  let aIsBereitschaft := isBereitschaft a in
  let bIsBereitschaft := isBereitschaft b in
  if aIsBereitschaft && negb bIsBereitschaft then Num.ofZ 1
  else if negb aIsBereitschaft && bIsBereitschaft then Num.ofZ (-1)
  else
    let dateA := dateTime (date a) in
    let dateB := dateTime (date b) in
    if strictNe dateA dateB then (dateA - dateB)%num
    else if Str.nonEmpty (startTime a) && Str.nonEmpty (startTime b)
    then Num.ofZ (Str.localeCompare (startTime a) (startTime b))
    else Num.zero.

(** [Array.prototype.sort] with a comparator. The algorithm is the
    engine's, and the language fixes its result, the stable sorted
    order, only for a comparator that is consistent on the elements;
    for any other comparator engines differ. The model is a stable
    insertion sort: each element moves left past the elements that
    compare greater, so an array without a neighbour comparing greater
    than its successor is returned as it is. A NaN from the comparator
    counts as 0. *)
Module JsArray.

Section Sort.

Context {A : Type} (comparefn : A → A → number).

Definition sortCompare (x y : A) : number :=
  let v := comparefn x y in
  if Num.isNaN v then Num.zero else v.

(** [sorted] holds the sorted prefix, its last element first. *)
Fixpoint insertBack (x : A) (sorted : list A) : list A :=
  match sorted with
  | [] => [x]
  | y :: rest =>
      if Num.gtb (sortCompare y x) Num.zero then y :: insertBack x rest
      else x :: sorted
  end.

Definition sort (l : list A) : list A :=
  reverse (fold_left (λ sorted x, insertBack x sorted) l []).

End Sort.

End JsArray.

Definition sortedEntries (entries : list Entry) : list Entry :=
  JsArray.sort compareEntries entries.

(** ** Summary metrics *)

(** [Map<string, number>]: keys in insertion order. *)
Module JsMap.

Definition t : Type := list (string * number).

Fixpoint get (k : string) (m : t) : option number :=
  match m with
  | [] => None
  | (k', v) :: r => if String.eqb k k' then Some v else get k r
  end.

(** [m.set(k, v)]: an existing key keeps its position. *)
Fixpoint set (k : string) (v : number) (m : t) : t :=
  match m with
  | [] => [(k, v)]
  | (k', v') :: r =>
      if String.eqb k k' then (k, v) :: r else (k', v') :: set k v r
  end.

Definition keys (m : t) : list string := m.*1.

End JsMap.

(** The reference date: [getFullYear()] and [getMonth()] (0 to 11). *)
Record Now : Type := mkNow { fullYear : Z; month : Z }.

Definition currentMonthStr (now : Now) : string :=
  pretty (fullYear now) +:+ "-" +:+ Str.padStart2 (pretty (month now + 1)).

(** First [forEach]: the vacation and the sick days. *)
Definition markDay (sets : gset string * gset string) (entry : Entry)
    : gset string * gset string :=
  let '(vacationDays, sickDays) := sets in
  let location := locationLower (location entry) in
  if String.eqb location "urlaub" then ({[date entry]} ∪ vacationDays, sickDays)
  else if String.eqb location "krank" then (vacationDays, {[date entry]} ∪ sickDays)
  else (vacationDays, sickDays).

Definition precedenceDays (entries : list Entry) : gset string * gset string :=
  fold_left markDay entries (∅, ∅).

Record Hours : Type := mkHours {
  onCallSet : gset string;
  workHoursByDay : JsMap.t;
  deploymentHoursByDay : JsMap.t
}.

(** [m.set(date, (m.get(date) || 0) + hours)] *)
Definition addHours (day : string) (hours : number) (m : JsMap.t) : JsMap.t :=
  let currentHours := Num.orZero (JsMap.get day m) in
  JsMap.set day (currentHours + hours)%num m.

Definition addDeployment (day : string) (m : JsMap.t) (dep : Deployment) : JsMap.t :=
  let depHours := calculateHours (dep_startTime dep) (dep_endTime dep) in
  addHours day depHours m.

Definition isExcluded (vacationDays sickDays : gset string) (day : string) : bool :=
  bool_decide (day ∈ vacationDays) || bool_decide (day ∈ sickDays).

(** Second [forEach]: hours of the entries outside vacation and sick days. *)
Definition accumulate (vacationDays sickDays : gset string)
    (acc : Hours) (entry : Entry) : Hours :=
  if isExcluded vacationDays sickDays (date entry) then acc
  else
    let location := locationLower (location entry) in
    if String.eqb location "bereitschaft" then
      let onCallDays := {[date entry]} ∪ onCallSet acc in
      match deployments entry with
      | Some deps =>
          mkHours onCallDays (workHoursByDay acc)
            (fold_left (addDeployment (date entry)) deps (deploymentHoursByDay acc))
      | None => mkHours onCallDays (workHoursByDay acc) (deploymentHoursByDay acc)
      end
    else if negb (String.eqb location "pause") then
      let calculated := calculateHours (startTime entry) (endTime entry) in
      if Num.gtb calculated Num.zero then
        mkHours (onCallSet acc) (addHours (date entry) calculated (workHoursByDay acc))
          (deploymentHoursByDay acc)
      else acc
    else acc.

Definition hoursByDay (vacationDays sickDays : gset string)
    (entries : list Entry) : Hours :=
  fold_left (accumulate vacationDays sickDays) entries (mkHours ∅ [] []).

(** The three running totals of the two [for ... of] loops. *)
Record Totals : Type := mkTotals {
  calculatedOvertime : number;
  monthOvertime : number;
  workTotal : number
}.

Definition eight : number := Num.ofZ 8.

Definition addWorkDay (monthStr : string) (tot : Totals) (day : string * number) : Totals :=
  let '(date, hours) := day in
  let dailyOvertime := (hours - eight)%num in
  mkTotals (calculatedOvertime tot + dailyOvertime)%num
    (if Str.startsWith date monthStr then (monthOvertime tot + dailyOvertime)%num
     else monthOvertime tot)
    (workTotal tot + hours)%num.

Definition addDeploymentDay (monthStr : string) (tot : Totals) (day : string * number) : Totals :=
  let '(date, hours) := day in
  mkTotals (calculatedOvertime tot + hours)%num
    (if Str.startsWith date monthStr then (monthOvertime tot + hours)%num
     else monthOvertime tot)
    (workTotal tot + hours)%num.

Definition summaryMetrics (entries : list Entry) (baseOvertime : number)
    (now : Now) : SummaryMetrics :=
  let '(vacationDays, sickDays) := precedenceDays entries in
  let h := hoursByDay vacationDays sickDays entries in
  let monthStr := currentMonthStr now in
  let t0 := mkTotals Num.zero Num.zero Num.zero in
  let t1 := fold_left (addWorkDay monthStr) (workHoursByDay h) t0 in
  let t2 := fold_left (addDeploymentDay monthStr) (deploymentHoursByDay h) t1 in
  {| totalOvertime := (calculatedOvertime t2 + baseOvertime)%num;
     currentMonthOvertime := monthOvertime t2;
     totalWorkHours := workTotal t2;
     vacationDays := size vacationDays;
     sickDays := size sickDays;
     onCallDays := size (onCallSet h) |}.

#[global] Instance SummaryMetrics_eq_dec : EqDecision SummaryMetrics.
Proof. solve_decision. Defined.

(** Entries used in the examples. *)
Definition regular (i d s e : string) : Entry :=
  mkEntry i d "Büro" s e None None.
Definition special (i d l : string) : Entry :=
  mkEntry i d l "" "" None None.
Definition onCall (i d : string) (deps : list Deployment) : Entry :=
  mkEntry i d "Bereitschaft" "" "" None (Some deps).
Definition june24 : Now := mkNow 2024 5.

(** ** Adding and updating entries *)

(** The state of the entry form. *)
Record NewEntry : Type := mkNewEntry {
  ne_date : string;
  ne_location : string;
  ne_startTime : string;
  ne_endTime : string;
  ne_isChildSick : bool;
  ne_hasDeployments : bool;
  ne_deployments : list Deployment
}.

(** The state of the edit dialog: the entry being edited, the checkbox
    and the deployment list. *)
Record FormData : Type := mkFormData {
  fd_id : string;
  fd_date : string;
  fd_location : string;
  fd_startTime : string;
  fd_endTime : string;
  fd_isChildSick : option bool;
  fd_hasDeployments : bool;
  fd_deployments : list Deployment
}.

Definition isSpecialEntry (location : string) : bool :=
  let locationLower := locationLower location in
  String.eqb locationLower "urlaub" || String.eqb locationLower "krank"
  || String.eqb locationLower "bereitschaft".

Definition requiredFieldsError : string :=
  "Datum und Ort/Auftrag sind Pflichtfelder.".

Definition timeSpanError : string :=
  "Bei regulären Einträgen sind eine gültige Start- und Endzeit erforderlich, die eine positive Arbeitszeit ergeben.".

(** The two validation steps shared by both handlers. *)
Definition validate (date location startTime endTime : string) : option string :=
  if negb (Str.nonEmpty date) || negb (Str.nonEmpty location)
  then Some requiredFieldsError
  else if negb (isSpecialEntry location)
          && (negb (Str.nonEmpty startTime) || negb (Str.nonEmpty endTime)
              || Num.leb (calculateHours startTime endTime) Num.zero)
  then Some timeSpanError
  else None.

(** The object literal both handlers build. *)
Definition buildEntry (id date location startTime endTime : string)
    (isChildSick : option bool) (hasDeployments : bool)
    (deployments : list Deployment) : Entry :=
  let locationLower := locationLower location in
  {| id := id;
     date := date;
     location := location;
     startTime := if isSpecialEntry location then "" else startTime;
     endTime := if isSpecialEntry location then "" else endTime;
     isChildSick := if String.eqb locationLower "krank" then isChildSick else None;
     deployments :=
       if String.eqb locationLower "bereitschaft" && hasDeployments
       then Some deployments else None |}.

(** [handleSubmit]: the new collection and the error shown; [idNow] is
    [Date.now().toString()]. *)
Definition handleSubmit (idNow : string) (newEntry : NewEntry)
    (entries : list Entry) : list Entry * option string :=
  match validate (ne_date newEntry) (ne_location newEntry)
          (ne_startTime newEntry) (ne_endTime newEntry) with
  | Some error => (entries, Some error)
  | None =>
      let newEntryToAdd :=
        buildEntry idNow (ne_date newEntry) (ne_location newEntry)
          (ne_startTime newEntry) (ne_endTime newEntry)
          (Some (ne_isChildSick newEntry)) (ne_hasDeployments newEntry)
          (ne_deployments newEntry) in
      (newEntryToAdd :: entries, None)
  end.

Definition handleUpdateEntry (updatedEntry : Entry) (entries : list Entry)
    : list Entry :=
  (λ e, if String.eqb (id e) (id updatedEntry) then updatedEntry else e) <$> entries.

(** [handleSaveChanges], with the [onUpdate] callback it is given. *)
Definition handleSaveChanges (formData : FormData) (entries : list Entry)
    : list Entry * option string :=
  match validate (fd_date formData) (fd_location formData)
          (fd_startTime formData) (fd_endTime formData) with
  | Some error => (entries, Some error)
  | None =>
      let updatedEntry :=
        buildEntry (fd_id formData) (fd_date formData) (fd_location formData)
          (fd_startTime formData) (fd_endTime formData)
          (fd_isChildSick formData) (fd_hasDeployments formData)
          (fd_deployments formData) in
      (handleUpdateEntry updatedEntry entries, None)
  end.

(** The kinds whose entries carry their own start and end time. *)
Definition requiresTimeBounds (location : string) : Prop :=
  classify location = Regular ∨ classify location = Pause.

(** The submissions the handlers turn down. *)
Definition rejects (date location startTime endTime : string) : Prop :=
  date = "" ∨ location = ""
  ∨ (requiresTimeBounds location
     ∧ Num.leb (calculateHours startTime endTime) Num.zero = true).

(** The submissions the description has turned down: as [rejects], with
    Regular the only kind that requires time bounds. *)
Definition describedRejects (date location startTime endTime : string) : Prop :=
  date = "" ∨ location = ""
  ∨ (classify location = Regular
     ∧ Num.leb (calculateHours startTime endTime) Num.zero = true).

(** The invariant of the data model on one entry. *)
Definition entryInvariant (entry : Entry) : Prop :=
  (is_Some (deployments entry) → kind entry = OnCall)
  ∧ (is_Some (isChildSick entry) → kind entry = Sick)
  ∧ (kind entry = Vacation ∨ kind entry = Sick ∨ kind entry = OnCall →
     startTime entry = "" ∧ endTime entry = "").

(** ** Loading a document *)

(** The values [JSON.parse] returns. *)
Inductive JSON : Type :=
| JNull
| JBool (b : bool)
| JNumber (q : Qc)
| JString (s : string)
| JArray (items : list JSON)
| JObject (fields : list (string * JSON)).

(** The four pieces of state a document is made of. [setEntries] stores
    [data.entries] as it comes, so the entries are raw values here. *)
Record Document : Type := mkDocument {
  doc_entries : list JSON;
  doc_employeeName : string;
  doc_savedLocations : list JSON;
  doc_baseOvertime : number
}.

(** The own property [k] of a parsed object: of duplicate keys the last
    one counts. *)
Fixpoint ownProperty (k : string) (fields : list (string * JSON)) : option JSON :=
  match fields with
  | [] => None
  | (k', v) :: rest =>
      match ownProperty k rest with
      | Some v' => Some v'
      | None => if String.eqb k k' then Some v else None
      end
  end.

(** [data.k] as far as the loader reads it: [undefined] on everything but
    an object holding the key (none of the four keys is inherited as an
    array, a string or a number). *)
Definition property (k : string) (data : JSON) : option JSON :=
  match data with
  | JObject fields => ownProperty k fields
  | _ => None
  end.

(** [Array.isArray(v) ? v : undefined] *)
Definition asArray (v : option JSON) : option (list JSON) :=
  match v with Some (JArray items) => Some items | _ => None end.

Definition invalidFormat : string :=
  "Fehler beim Laden der Datei: Ungültiges Dateiformat. Die Datei muss ein 'entries'-Array enthalten.".

Definition unreadable : string := "Fehler beim Laden der Datei".

(** The [onload] callback of [handleFileSelected], run once the overwrite
    is confirmed: [parsed] is the result of [JSON.parse], [None] when the
    file is not text or does not parse. The result is the document and the
    alert shown. *)
Definition loadDocument (parsed : option JSON) (doc : Document)
    : Document * option string :=
  match parsed with
  | None => (doc, Some unreadable)
  | Some data =>
      match asArray (property "entries" data) with
      | Some entries =>
          ({| doc_entries := entries;
              doc_employeeName :=
                match property "employeeName" data with
                | Some (JString s) => s
                | _ => ""
                end;
              doc_savedLocations :=
                match asArray (property "savedLocations" data) with
                | Some l => l
                | None => []
                end;
              doc_baseOvertime :=
                match property "baseOvertime" data with
                | Some (JNumber q) => Fin q
                | _ => Num.zero
                end |}, None)
      | None => (doc, Some invalidFormat)
      end
  end.

(** [handleFileSelected]: nothing happens without a file or when the
    overwrite is cancelled. *)
Definition handleFileSelected (file : option (option JSON)) (confirmed : bool)
    (doc : Document) : Document * option string :=
  match file with
  | None => (doc, None)
  | Some parsed => if confirmed then loadDocument parsed doc else (doc, None)
  end.

(** The parsed data has an [entries] field that is the array [entries]. *)
Definition hasEntries (parsed : option JSON) (entries : list JSON) : Prop :=
  ∃ fields, parsed = Some (JObject fields)
            ∧ ownProperty "entries" fields = Some (JArray entries).

(** The value of a field, or the default when it is absent or of another
    type. *)
Definition stringField (k : string) (parsed : option JSON) : string :=
  match parsed with
  | Some (JObject fields) =>
      match ownProperty k fields with Some (JString s) => s | _ => "" end
  | _ => ""
  end.

Definition arrayField (k : string) (parsed : option JSON) : list JSON :=
  match parsed with
  | Some (JObject fields) =>
      match ownProperty k fields with Some (JArray l) => l | _ => [] end
  | _ => []
  end.

Definition numberField (k : string) (parsed : option JSON) : number :=
  match parsed with
  | Some (JObject fields) =>
      match ownProperty k fields with Some (JNumber q) => Fin q | _ => Num.zero end
  | _ => Num.zero
  end.

(** ** The summary in the words of its description

    The definitions below follow the prose description of the engine;
    they are compared with [summaryMetrics] in the theorems. *)

(** The running sum [acc += x] over a list, and the sum of a list taken
    from 0 in list order. *)
Definition sumFrom (acc : number) (l : list number) : number :=
  fold_left Num.add l acc.

Definition nsum (l : list number) : number := sumFrom Num.zero l.

Definition hasKind (k : Kind) (entry : Entry) : bool :=
  bool_decide (kind entry = k).

(** Some entry classified Vacation or Sick is dated [day]. *)
Definition flagged (entries : list Entry) (day : string) : bool :=
  existsb (λ e, String.eqb (date e) day && (hasKind Vacation e || hasKind Sick e))
    entries.

(** The entries that take part in the computation of hours. *)
Definition counted (entries : list Entry) : list Entry :=
  filter (λ e, flagged entries (date e) = false) entries.

(** The positive spans of the Regular entries, each with its day. *)
Definition regularSpan (entry : Entry) : option (string * number) :=
  let hours := calculateHours (startTime entry) (endTime entry) in
  if hasKind Regular entry && Num.gtb hours Num.zero
  then Some (date entry, hours) else None.

Definition regularSpans (entries : list Entry) : list (string * number) :=
  omap regularSpan (counted entries).

(** The spans of the deployments of the OnCall entries, each with the day
    of its entry. *)
Definition deploymentSpansOf (entry : Entry) : list (string * number) :=
  if hasKind OnCall entry then
    (λ dep, (date entry, calculateHours (dep_startTime dep) (dep_endTime dep)))
      <$> default [] (deployments entry)
  else [].

Definition deploymentSpans (entries : list Entry) : list (string * number) :=
  counted entries ≫= deploymentSpansOf.

(** The distinct days of a list, in the order in which they first
    appear. *)
Definition inOrder (days : list string) : list string :=
  fold_left (λ seen d, if decide (d ∈ seen) then seen else seen ++ [d]) days [].

(** The distinct days of a list of spans, and the hours summed on a day. *)
Definition daysOf (spans : list (string * number)) : list string :=
  inOrder spans.*1.

Definition hoursOn (day : string) (spans : list (string * number)) : number :=
  nsum (filter (λ p, p.1 = day) spans).*2.

(** The hours of every Regular entry outside vacation and sick days,
    positive or not, each with its day. *)
Definition regularHours (entries : list Entry) : list (string * number) :=
  omap (λ e, if hasKind Regular e
             then Some (date e, calculateHours (startTime e) (endTime e))
             else None) (counted entries).

(** [sum(daily_regular_overtime) + sum(oncall_hours) + baseOvertimeCorrection],
    as the description states it: a sum over the days with Regular
    entries, a sum over the deployments, and the baseline. *)
Definition statedOvertime (entries : list Entry) (baseOvertime : number) : number :=
  let regular := regularHours entries in
  (nsum ((λ d, (hoursOn d regular - eight)%num) <$> daysOf regular)
   + nsum (deploymentSpans entries).*2
   + baseOvertime)%num.

(** The same figure with the additions in the order of the code: the
    days with positive Regular hours in the order of their first entry,
    each less eight hours, then the days with deployments in the order
    of their first deployment, each with its hours summed, then the
    baseline. *)
Definition describedOvertime (entries : list Entry) (baseOvertime : number) : number :=
  let regular := regularSpans entries in
  let deployment := deploymentSpans entries in
  (sumFrom Num.zero
     (((λ d, (hoursOn d regular - eight)%num) <$> daysOf regular)
      ++ ((λ d, hoursOn d deployment) <$> daysOf deployment))
   + baseOvertime)%num.

(** The distinct dates that carry an entry of a kind. *)
Definition datesOfKind (k : Kind) (entries : list Entry) : list string :=
  remove_dups (date <$> filter (λ e, kind e = k) entries).

(** Every start and end time of the deployments is empty or a valid HH:MM. *)
Definition isTimeInput (t : string) : bool :=
  negb (Str.nonEmpty t) || bool_decide (is_Some (parseHHMM t)).

Definition deploymentsTimed (entry : Entry) : Prop :=
  Forall (λ dep, isTimeInput (dep_startTime dep) && isTimeInput (dep_endTime dep))
    (default [] (deployments entry)).

(** ** Auxiliary views of the second pass

    What an entry adds to each of the two maps, as a list of spans, and
    the map a list of spans accumulates to. *)

Definition accumulateSpans (spans : list (string * number)) (m : JsMap.t) : JsMap.t :=
  fold_left (λ m p, addHours p.1 p.2 m) spans m.

Definition workSpan (vacationDays sickDays : gset string) (entry : Entry)
    : option (string * number) :=
  if isExcluded vacationDays sickDays (date entry) then None
  else
    let location := locationLower (location entry) in
    if String.eqb location "bereitschaft" then None
    else if negb (String.eqb location "pause") then
      let calculated := calculateHours (startTime entry) (endTime entry) in
      if Num.gtb calculated Num.zero then Some (date entry, calculated) else None
    else None.

Definition onCallSpans (vacationDays sickDays : gset string) (entry : Entry)
    : list (string * number) :=
  if isExcluded vacationDays sickDays (date entry) then []
  else if String.eqb (locationLower (location entry)) "bereitschaft" then
    (λ dep, (date entry, calculateHours (dep_startTime dep) (dep_endTime dep)))
      <$> default [] (deployments entry)
  else [].

Definition onCallDate (vacationDays sickDays : gset string) (entry : Entry)
    : option string :=
  if isExcluded vacationDays sickDays (date entry) then None
  else if String.eqb (locationLower (location entry)) "bereitschaft"
  then Some (date entry) else None.

(** Numbers other than NaN. *)
Definition finite (x : number) : Prop := Num.isNaN x = false.

Definition allFinite (m : list (string * number)) : Prop :=
  Forall (λ p, finite p.2) m.

(** One binding per day, holding the hours summed on that day. *)
Definition dayTotals (spans : list (string * number)) : JsMap.t :=
  (λ d, (d, hoursOn d spans)) <$> daysOf spans.

(** The two sets of the first pass. *)
Definition vacationSet (entries : list Entry) : gset string :=
  (precedenceDays entries).1.

Definition sickSet (entries : list Entry) : gset string :=
  (precedenceDays entries).2.

(** The two [for ... of] loops over given maps. *)
Definition totalsOf (monthStr : string) (work deployment : JsMap.t) : Totals :=
  fold_left (addDeploymentDay monthStr) deployment
    (fold_left (addWorkDay monthStr) work (mkTotals Num.zero Num.zero Num.zero)).

(** The distinct dates of the OnCall entries outside vacation and sick days. *)
Definition countedOnCallDates (entries : list Entry) : list string :=
  remove_dups (date <$> filter (λ e, kind e = OnCall) (counted entries)).

(** ** The display order in the words of its description *)

(** The time value of a valid date, as an integer. *)
Definition dateKey (entry : Entry) : Z := default 0 (dateValue (date entry)).

(** Both entries are OnCall, or neither is. *)
Definition samePartition (a b : Entry) : Prop :=
  hasKind OnCall a = hasKind OnCall b.

(** The order the description asks for: OnCall entries last, each part
    by date, the entries of a date by start time whenever both entries
    have one. *)
Definition describedBefore (a b : Entry) : Prop :=
  (kind a = OnCall → kind b = OnCall)
  ∧ (samePartition a b → dateKey a ≤ dateKey b)
  ∧ (samePartition a b → dateKey a = dateKey b →
     startTime a ≠ "" → startTime b ≠ "" →
     String.leb (startTime a) (startTime b) = true).

#[global] Instance describedBefore_dec (a b : Entry) : Decision (describedBefore a b).
Proof. unfold describedBefore, samePartition. apply _. Defined.

(** Collections used in the examples below. *)
Definition mixedDeployments : list Entry :=
  [onCall "1" "2024-06-03"
     [mkDeployment "a" "x" "ab" "cd"; mkDeployment "b" "y" "22:00" "23:00"]].

Definition badThenGood : list Entry :=
  [onCall "1" "2024-06-03" [mkDeployment "a" "x" "ab" "cd"];
   onCall "2" "2024-06-03" [mkDeployment "b" "y" "22:00" "23:00"]].

Definition goodThenBad : list Entry :=
  [onCall "2" "2024-06-03" [mkDeployment "b" "y" "22:00" "23:00"];
   onCall "1" "2024-06-03" [mkDeployment "a" "x" "ab" "cd"]].

Definition onCallOnVacation : list Entry :=
  [onCall "1" "2024-06-03" []; special "2" "2024-06-03" "Urlaub"].

Definition workWeek : list Entry :=
  [regular "1" "2024-06-03" "07:00" "12:00";
   regular "2" "2024-06-03" "12:30" "16:00";
   onCall "3" "2024-06-04" [mkDeployment "a" "x" "22:00" "23:30"];
   special "4" "2024-06-05" "Krank";
   regular "5" "2024-06-05" "07:00" "15:30"].

Definition workWeekShuffled : list Entry :=
  [special "4" "2024-06-05" "Krank";
   regular "1" "2024-06-03" "07:00" "12:00";
   onCall "3" "2024-06-04" [mkDeployment "a" "x" "22:00" "23:30"];
   regular "5" "2024-06-05" "07:00" "15:30";
   regular "2" "2024-06-03" "12:30" "16:00"].

(** Three spans of 213, 84 and 93 minutes, six and a half hours
    together, on one day. *)
Definition threeSpans : list Entry :=
  [regular "1" "2024-06-03" "07:00" "10:33";
   regular "2" "2024-06-03" "10:33" "11:57";
   regular "3" "2024-06-03" "11:57" "13:30"].

(** Three days of 74, 279 and 1014 minutes, and three on-call days with
    deployments of 1375, 1425 and 335 minutes. *)
Definition threeDays : list Entry :=
  [regular "1" "2024-06-03" "07:00" "08:14";
   regular "2" "2024-06-04" "07:00" "11:39";
   regular "3" "2024-06-05" "06:00" "22:54"].

Definition threeCalls : list Entry :=
  [onCall "1" "2024-06-03" [mkDeployment "a" "x" "00:00" "22:55"];
   onCall "2" "2024-06-04" [mkDeployment "b" "y" "00:00" "23:45"];
   onCall "3" "2024-06-05" [mkDeployment "c" "z" "00:00" "05:35"]].

(** A day of 125 minutes and two on-call days with deployments of 580
    and 465 minutes. *)
Definition dayAndCalls : list Entry :=
  [regular "1" "2024-06-03" "00:00" "02:05";
   onCall "2" "2024-06-04" [mkDeployment "a" "x" "00:00" "09:40"];
   onCall "3" "2024-06-05" [mkDeployment "b" "y" "00:00" "07:45"]].

(** A day whose one Regular entry ends before it starts. *)
Definition endBeforeStart : list Entry :=
  [regular "1" "2024-06-03" "10:00" "09:00"].

Definition threeOnOneDay : list Entry :=
  [regular "1" "2024-06-03" "10:00" "12:00";
   special "2" "2024-06-03" "Urlaub";
   regular "3" "2024-06-03" "09:00" "10:00"].

Definition mixedWeek : list Entry :=
  [onCall "1" "2024-06-01" [];
   regular "2" "2024-06-04" "12:30" "16:00";
   regular "3" "2024-06-03" "07:00" "15:30";
   regular "4" "2024-06-04" "07:00" "12:00";
   onCall "5" "2024-05-30" []].

Definition pauseWithoutTimes : NewEntry :=
  mkNewEntry "2024-06-03" "Pause" "" "" false false [].

Definition officeDay : NewEntry :=
  mkNewEntry "2024-06-03" "Büro" "07:00" "15:30" false false [].

(** An on-call form that still holds times and the child-sick mark. *)
Definition onCallForm : NewEntry :=
  mkNewEntry "2024-06-06" "Bereitschaft" "08:00" "09:00" true true
    [mkDeployment "a" "x" "22:00" "23:30"].

(** An edit to a sick day that still holds times and deployments. *)
Definition sickEdit : FormData :=
  mkFormData "4" "2024-06-05" "krank" "08:00" "09:00" (Some true) true
    [mkDeployment "a" "x" "22:00" "23:30"].

(** The entries the two forms are stored as. *)
Definition storedCall : Entry :=
  mkEntry "9" "2024-06-06" "Bereitschaft" "" "" None
    (Some [mkDeployment "a" "x" "22:00" "23:30"]).

Definition storedSick : Entry :=
  mkEntry "4" "2024-06-05" "krank" "" "" (Some true) None.

Definition onCallEdit : FormData :=
  mkFormData "3" "2024-06-04" "Bereitschaft" "08:00" "09:00" (Some true) true
    [mkDeployment "a" "x" "22:00" "23:30"].

Definition currentDocument : Document :=
  mkDocument [JObject [("id", JString "1")]] "Erika" [JString "Büro"] (Num.ofZ 3).

Definition entriesOnly : JSON :=
  JObject [("employeeName", JNumber (Qc_of_Z 7));
           ("entries", JArray [JObject [("id", JString "5")]; JNull])].

Definition withoutEntries : JSON :=
  JObject [("employeeName", JString "Max"); ("entries", JString "none")].

(** ** Time shorthand *)

(** [s.split(':')] *)
Fixpoint splitColon (s : string) : list string :=
  match s with
  | EmptyString => [EmptyString]
  | String c r =>
      if Ascii.eqb c ":" then EmptyString :: splitColon r
      else
        match splitColon r with
        | h :: t => String c h :: t
        | [] => [String c EmptyString]
        end
  end.

(** [s.includes(':')] *)
Fixpoint includesColon (s : string) : bool :=
  match s with
  | EmptyString => false
  | String c r => Ascii.eqb c ":" || includesColon r
  end.

(** The [switch] on a one-character minute part. *)
Definition expandMinutes (minutes : string) : string :=
  match minutes with
  | String c EmptyString =>
      if Ascii.eqb c "1" then "15"
      else if Ascii.eqb c "3" then "30"
      else if Ascii.eqb c "4" then "45"
      else if Ascii.eqb c "0" then "00"
      else minutes
  | _ => minutes
  end.

Definition transformTimeShorthand (time : string) : string :=
  if negb (Str.nonEmpty time) || negb (includesColon time) then time
  else
    match splitColon time with
    | hours :: minutes :: _ =>
        let minutes := expandMinutes minutes in
        let formattedHours := Str.padStart2 hours in
        let formattedMinutes := Str.padStart2 minutes in
        formattedHours +:+ ":" +:+ formattedMinutes
    | _ => time
    end.

(** ** Deployments of the form *)

Record CurrentDeployment : Type := mkCurrentDeployment {
  cd_location : string;
  cd_startTime : string;
  cd_endTime : string
}.

Definition emptyDeployment : CurrentDeployment := mkCurrentDeployment "" "" "".

Definition deploymentError : string :=
  "Bitte für den Einsatz Ort, gültige Start- und Endzeit angeben.".

(** [handleAddDeployment]: the deployment list, the deployment being
    typed and the error shown. *)
Definition handleAddDeployment (idNow : string) (currentDeployment : CurrentDeployment)
    (deployments : list Deployment)
    : list Deployment * CurrentDeployment * option string :=
  if negb (Str.nonEmpty (cd_location currentDeployment))
     || negb (Str.nonEmpty (cd_startTime currentDeployment))
     || negb (Str.nonEmpty (cd_endTime currentDeployment))
     || Num.leb (calculateHours (cd_startTime currentDeployment)
                   (cd_endTime currentDeployment)) Num.zero
  then (deployments, currentDeployment, Some deploymentError)
  else
    (deployments ++
       [mkDeployment idNow (cd_location currentDeployment)
          (cd_startTime currentDeployment) (cd_endTime currentDeployment)],
     emptyDeployment, None).

Definition handleRemoveDeployment (id : string) (deployments : list Deployment)
    : list Deployment :=
  filter (λ d, dep_id d ≠ id) deployments.

(** ** Pauses *)

(** [HH:MM] of a number of minutes after midnight. *)
Definition hhmm (m : Z) : string :=
  Str.padStart2 (pretty (m / 60)) +:+ ":" +:+ Str.padStart2 (pretty (m mod 60)).

(** Thirty minutes after [t], as
    [d.setMinutes(d.getMinutes() + 30); d.toTimeString().substring(0, 5)]
    gives it for [d = new Date(`1970-01-01T${t}:00`)]: the time of day,
    past midnight if need be, and the first five characters of
    "Invalid Date" when [t] does not parse. *)
Definition halfAnHourLater (t : string) : string :=
  match parseHHMM t with
  | Some m => hhmm ((m + 30) mod 1440)
  | None => "Inval"
  end.

(** The test of [find] in [handleAddPause]: a work entry with an end time. *)
Definition isWorkEntryWithEnd (e : Entry) : bool :=
  let loc := locationLower (location e) in
  negb (String.eqb loc "urlaub") && negb (String.eqb loc "krank")
  && negb (String.eqb loc "bereitschaft") && negb (String.eqb loc "pause")
  && Str.nonEmpty (endTime e).

Definition noWorkEntryAlert : string :=
  "Fügen Sie zuerst einen regulären Arbeitseintrag hinzu, um eine Pause anzuhängen.".

(** [handleAddPause], as a function of the displayed list it reads: the
    new collection and the alert shown. *)
Definition handleAddPauseOn (sortedEntries : list Entry) (idNow : string)
    (entries : list Entry) : list Entry * option string :=
  match List.find isWorkEntryWithEnd (reverse sortedEntries) with
  | None => (entries, Some noWorkEntryAlert)
  | Some lastWorkEntry =>
      let pauseStartTime := endTime lastWorkEntry in
      let pauseEndTime := halfAnHourLater pauseStartTime in
      let pauseEntry :=
        {| id := idNow;
           date := date lastWorkEntry;
           location := "Pause";
           startTime := pauseStartTime;
           endTime := pauseEndTime;
           isChildSick := None;
           deployments := None |} in
      (entries ++ [pauseEntry], None)
  end.

(** [handleAddPause] on the displayed list of the collection. *)
Definition handleAddPause (idNow : string) (entries : list Entry)
    : list Entry * option string :=
  handleAddPauseOn (sortedEntries entries) idNow entries.

(** The date of the entry is a valid [YYYY-MM-DD]. *)
Definition validDate (entry : Entry) : Prop := is_Some (dateValue (date entry)).

(** [a] does not compare greater than [b]. *)
Definition notAfter (a b : Entry) : Prop :=
  Num.gtb (compareEntries a b) Num.zero = false.

#[global] Instance notAfter_dec (a b : Entry) : Decision (notAfter a b).
Proof. unfold notAfter. apply _. Defined.

(** ** Deleting and editing entries *)

(** The confirmed [handleDeleteEntry]. *)
Definition handleDeleteEntry (id_ : string) (entries : list Entry) : list Entry :=
  filter (λ e, id e ≠ id_) entries.

(** The state the edit dialog starts from. *)
Definition openEditModal (entry : Entry) : FormData :=
  {| fd_id := id entry;
     fd_date := date entry;
     fd_location := location entry;
     fd_startTime := startTime entry;
     fd_endTime := endTime entry;
     fd_isChildSick := isChildSick entry;
     fd_hasDeployments :=
       match deployments entry with
       | Some (_ :: _) => true
       | _ => false
       end;
     fd_deployments := default [] (deployments entry) |}.

(** [isFormValid], which enables the submit button. *)
Definition isFormValid (newEntry : NewEntry) : bool :=
  Str.nonEmpty (ne_date newEntry) && Str.nonEmpty (ne_location newEntry)
  && (isSpecialEntry (ne_location newEntry)
      || (Str.nonEmpty (ne_startTime newEntry) && Str.nonEmpty (ne_endTime newEntry))).

(** ** Saved locations *)

Section SavedLocations.

(** [a.localeCompare(b, 'de')]: German collation belongs to the runtime. *)
Variable localeCompareDe : string → string → number.

(** [handleAddSavedLocation]: the list and the text of the input field. *)
Definition handleAddSavedLocation (newSavedLocation : string)
    (savedLocations : list string) : list string * string :=
  let locationToAdd := Str.trim newSavedLocation in
  if Str.nonEmpty locationToAdd
     && negb (existsb (λ l, String.eqb (Str.toLowerCase l) (Str.toLowerCase locationToAdd))
                savedLocations)
  then (JsArray.sort localeCompareDe (savedLocations ++ [locationToAdd]), "")
  else (savedLocations, newSavedLocation).

End SavedLocations.

(** ** Further descriptions used in the statements *)

(** The entries of the current month. *)
Definition inMonth (monthStr : string) (entries : list Entry) : list Entry :=
  filter (λ e, Str.startsWith (date e) monthStr = true) entries.

(** The bindings or spans of the days of a month. *)
Definition monthSpans (monthStr : string) (m : list (string * number))
    : list (string * number) :=
  filter (λ p, Str.startsWith p.1 monthStr = true) m.

(** No two entries share an id. *)
Definition uniqueIds (entries : list Entry) : Prop := NoDup (id <$> entries).

(** No two saved locations are equal up to case. *)
Definition caseUnique (savedLocations : list string) : Prop :=
  NoDup (Str.toLowerCase <$> savedLocations).

(** The minutes a one-digit minute part stands for. *)
Definition quarterMinutes (d : Z) : Z :=
  if d =? 1 then 15 else if d =? 3 then 30 else if d =? 4 then 45 else 0.

(** A half-hour break, entered with stray blanks and capitals. *)
Definition lunchBreak : Entry :=
  mkEntry "p" "2024-06-03" " PAUSE" "12:00" "12:30" None None.

(** * Properties *)

(** Closed equations between numbers are settled by the decision
    procedure, since canonical rationals carry a proof component. *)
Ltac by_compute :=
  match goal with
  | |- ?P => apply (bool_decide_eq_true_1 P); vm_compute; reflexivity
  end.

(** ** Rounding

    Integers of magnitude below [2^53] are doubles. *)

Lemma Qc_of_Z_neq_0 (z : Z) : z ≠ 0 → Qc_of_Z z ≠ 0%Qc.
Proof. intros Hz H. apply Hz, Z2Qc_inj. by rewrite H, Z2Qc_inj_0. Qed.

Lemma nearestEven_unit (a : Z) : Num.nearestEven a 1 = a.
Proof.
  unfold Num.nearestEven. rewrite Z.div_1_r, Z.mod_1_r. done.
Qed.

Lemma pow2_scale (a k : Z) :
  0 ≤ k → (Qc_of_Z (a * 2 ^ k) * Num.pow2 (- k))%Qc = Qc_of_Z a.
Proof.
  intros Hk. unfold Num.pow2. destruct (Z.leb_spec 0 (- k)) as [H0|Hneg].
  - assert (k = 0) as -> by lia. change (2 ^ (- 0)) with 1. change (2 ^ 0) with 1.
    rewrite Z.mul_1_r, Z2Qc_inj_1. apply Qcmult_1_r.
  - rewrite Z.opp_involutive, Z2Qc_inj_mul.
    assert (Qc_of_Z (2 ^ k) ≠ 0%Qc) by (apply Qc_of_Z_neq_0; lia).
    by field.
Qed.

Lemma binary64pos_Z (a : Z) :
  0 < a < 2 ^ 53 → Num.binary64pos a 1 = Qc_of_Z a.
Proof.
  intros Ha. unfold Num.binary64pos, Num.floorLog2.
  change (Z.log2 1) with 0. rewrite Z.sub_0_r.
  pose proof (Z.log2_nonneg a) as Hlog.
  pose proof (proj1 (Z.log2_spec a (proj1 Ha))) as Hpow.
  assert (Z.log2 a < 53) as Hlt by (apply Z.log2_lt_pow2; lia).
  rewrite (proj2 (Z.leb_le 0 (Z.log2 a))) by lia.
  rewrite Z.mul_1_l, (proj2 (Z.leb_le _ _) Hpow).
  rewrite Z.max_l by lia. cbv zeta.
  destruct (Z.leb_spec 0 (Z.log2 a - 52)) as [H0|Hneg].
  - assert (Z.log2 a - 52 = 0) as -> by lia.
    change (1 * 2 ^ 0) with 1. rewrite nearestEven_unit.
    rewrite <- (Z.mul_1_r a) at 1. apply (pow2_scale a 0). lia.
  - rewrite nearestEven_unit.
    replace (Z.log2 a - 52) with (- (52 - Z.log2 a)) at 2 by lia.
    replace (- (Z.log2 a - 52)) with (52 - Z.log2 a) by lia.
    apply pow2_scale. lia.
Qed.

Lemma binary64_Z (z : Z) :
  - 2 ^ 53 < z < 2 ^ 53 → Num.binary64 (Qc_of_Z z) = Qc_of_Z z.
Proof.
  intros Hz. unfold Num.binary64. cbn [Qc_of_Z this inject_Z Qnum Qden].
  destruct z as [|a|a].
  - by rewrite Z2Qc_inj_0.
  - apply binary64pos_Z. lia.
  - rewrite binary64pos_Z by lia. by rewrite <- Z2Qc_inj_opp.
Qed.

Lemma Fin_Z (z : Z) :
  - 2 ^ 53 < z < 2 ^ 53 → Fin (Qc_of_Z z) = Dbl (Qc_of_Z z).
Proof. intros Hz. unfold Fin. by rewrite binary64_Z. Qed.

Lemma ofZ_exact (z : Z) :
  - 2 ^ 53 < z < 2 ^ 53 → Num.ofZ z = Dbl (Qc_of_Z z).
Proof. apply Fin_Z. Qed.

Lemma zero_eq : Num.zero = Dbl 0%Qc.
Proof. reflexivity. Qed.











Example calculateHours_0900_1730 :
  calculateHours "09:00" "17:30" = Fin (Q2Qc (17 # 2)).
Proof. by_compute. Qed.

(** ** Time arithmetic *)

Lemma nonEmpty_false (s : string) : Str.nonEmpty s = false ↔ s = "".
Proof. destruct s; simpl; split; congruence. Qed.

Lemma nonEmpty_true (s : string) : Str.nonEmpty s = true ↔ s ≠ "".
Proof. destruct s; simpl; split; congruence. Qed.

Lemma parseHHMM_nonEmpty (t : string) (m : Z) :
  parseHHMM t = Some m → Str.nonEmpty t = true.
Proof. destruct t; [discriminate | reflexivity]. Qed.

Lemma calculateHours_empty (start end_ : string) :
  start = "" ∨ end_ = "" → calculateHours start end_ = Num.zero.
Proof.
  unfold calculateHours. intros [-> | ->]; simpl; [done|].
  by rewrite orb_true_r.
Qed.

Lemma millis_to_hours (s e : Z) :
  ((Qc_of_Z (e * 60000) - Qc_of_Z (s * 60000)) / Qc_of_Z 3600000)%Qc
  = (Qc_of_Z (e - s) / Qc_of_Z 60)%Qc.
Proof.
  change 3600000 with (60000 * 60).
  rewrite !Z2Qc_inj_mul, Z2Qc_inj_sub.
  assert (Qc_of_Z 60000 ≠ 0%Qc) by (apply Qc_of_Z_neq_0; lia).
  assert (Qc_of_Z 60 ≠ 0%Qc) by (apply Qc_of_Z_neq_0; lia).
  field. done.
Qed.

Lemma parseHHMM_range (t : string) (m : Z) :
  parseHHMM t = Some m → 0 ≤ m ≤ 1440.
Proof.
  destruct t as [|h1 [|h2 [|c rest]]]; try discriminate.
  destruct rest as [|m1 [|m2 [|]]];
    try (destruct c as [[] [] [] [] [] [] [] []]; discriminate).
  intros H.
  assert (∃ x1 x2 y1 y2, Str.digit h1 = Some x1 ∧ Str.digit h2 = Some x2
            ∧ Str.digit m1 = Some y1 ∧ Str.digit m2 = Some y2
            ∧ (if (10 * x1 + x2 <=? 23) && (10 * y1 + y2 <=? 59)
               then Some (60 * (10 * x1 + x2) + (10 * y1 + y2))
               else if (10 * x1 + x2 =? 24) && (10 * y1 + y2 =? 0)
                    then Some (60 * 24) else None) = Some m)
    as (x1 & x2 & y1 & y2 & H1 & H2 & M1 & M2 & Hm).
  { destruct c as [[] [] [] [] [] [] [] []]; try discriminate H.
    simpl in H. unfold twoDigits in H.
    destruct (Str.digit h1), (Str.digit h2), (Str.digit m1), (Str.digit m2);
      try discriminate H. eauto 10. }
  assert (∀ c x, Str.digit c = Some x → 0 ≤ x ≤ 9) as Hdigit.
  { intros c' x. unfold Str.digit.
    destruct ((48 <=? nat_of_ascii c')%nat && (nat_of_ascii c' <=? 57)%nat) eqn:E;
      [|done].
    apply andb_prop in E as [E1%Nat.leb_le E2%Nat.leb_le]. intros [= <-]. lia. }
  apply Hdigit in H1, H2, M1, M2.
  destruct ((10 * x1 + x2 <=? 23) && (10 * y1 + y2 <=? 59)) eqn:E.
  - apply andb_prop in E as [E1%Z.leb_le E2%Z.leb_le]. simplify_eq. lia.
  - destruct ((10 * x1 + x2 =? 24) && (10 * y1 + y2 =? 0)); simplify_eq. lia.
Qed.

(** The hours between two times of day: every span of whole minutes
    within a day gives a positive double. *)
Lemma minutes_hours_pos (d : Z) :
  1 ≤ d ≤ 1440 → (0 < Num.binary64 (Qc_of_Z d / Qc_of_Z 60))%Qc.
Proof.
  intros Hd.
  assert (Forall (λ d, (0 < Num.binary64 (Qc_of_Z d / Qc_of_Z 60))%Qc) (seqZ 1 1440))
    as Hall by by_compute.
  rewrite Forall_forall in Hall. apply Hall, elem_of_seqZ. lia.
Qed.

Lemma span_positive (start end_ : string) (s e : Z) :
  parseHHMM start = Some s → parseHHMM end_ = Some e → s < e →
  (0 < Num.binary64 (Qc_of_Z (e - s) / Qc_of_Z 60))%Qc.
Proof.
  intros Rs%parseHHMM_range Re%parseHHMM_range Hlt.
  apply minutes_hours_pos. lia.
Qed.

Lemma calculateHours_parsed (start end_ : string) (s e : Z) :
  parseHHMM start = Some s → parseHHMM end_ = Some e →
  calculateHours start end_ =
    if decide (e ≤ s) then Num.zero else Fin (Qc_of_Z (e - s) / Qc_of_Z 60)%Qc.
Proof.
  intros Hs He. unfold calculateHours, timeOnReferenceDay.
  pose proof (parseHHMM_range _ _ Hs) as Rs.
  pose proof (parseHHMM_range _ _ He) as Re.
  rewrite (parseHHMM_nonEmpty _ _ Hs), (parseHHMM_nonEmpty _ _ He), Hs, He.
  cbn [negb orb]. rewrite !ofZ_exact by lia. cbn [Num.leb].
  destruct (decide (e ≤ s)) as [Hle | Hgt].
  - rewrite bool_decide_eq_true_2; [done|]. rewrite <- Z2Qc_inj_le. lia.
  - rewrite bool_decide_eq_false_2 by (rewrite <- Z2Qc_inj_le; lia).
    unfold Num.sub. rewrite <- Z2Qc_inj_sub, Fin_Z by lia.
    cbn [Num.divZ]. change (1000 * 60 * 60) with 3600000.
    rewrite Z2Qc_inj_sub, millis_to_hours.
    rewrite zero_eq. unfold Fin at 1. cbn [Num.max].
    rewrite bool_decide_eq_true_2; [done|].
    apply Qclt_le_weak, minutes_hours_pos. lia.
Qed.

(** C4. [calculateHours] returns 0 when an argument is empty; on two
    valid HH:MM times it returns 0 when the end is not after the start,
    and otherwise exactly the difference in hours: the minutes between
    the two divided by 60, as the double nearest to that quotient, with
    no rounding to decimals. *)
Theorem calculateHours_spec (start end_ : string) :
  (start = "" ∨ end_ = "" → calculateHours start end_ = Num.zero)
  ∧ (∀ s e, parseHHMM start = Some s → parseHHMM end_ = Some e →
       (e ≤ s → calculateHours start end_ = Num.zero)
       ∧ (s < e →
          calculateHours start end_ = Fin (Qc_of_Z (e - s) / Qc_of_Z 60)%Qc)).
Proof.
  split; [apply calculateHours_empty|].
  intros s e Hs He. rewrite (calculateHours_parsed _ _ _ _ Hs He).
  split; intros Hse.
  - by rewrite decide_True.
  - by rewrite decide_False by lia.
Qed.

Lemma calculateHours_spec_witness :
  parseHHMM "09:00" = Some 540 ∧ parseHHMM "17:30" = Some 1050 ∧ 540 < 1050
  ∧ calculateHours "09:00" "17:30" = Fin (Qc_of_Z (1050 - 540) / Qc_of_Z 60)%Qc.
Proof.
  split; [reflexivity|]. split; [reflexivity|]. split; [lia|].
  apply (proj2 (calculateHours_spec "09:00" "17:30") 540 1050);
    [reflexivity | reflexivity | lia].
Defined.

Example calculateHours_overnight : calculateHours "22:00" "02:00" = Num.zero.
Proof. by_compute. Qed.

Example calculateHours_unparsed : calculateHours "ab" "cd" = NaN.
Proof. by_compute. Qed.

(** ** Scenarios of the summary *)

Example scenario_regular_day :
  summaryMetrics [regular "1" "2024-06-03" "09:00" "17:30"] Num.zero june24
  = mkSummaryMetrics (Fin (Q2Qc (1 # 2))) (Fin (Q2Qc (1 # 2)))
      (Fin (Q2Qc (17 # 2))) 0 0 0.
Proof. by_compute. Qed.

Example scenario_vacation_wins :
  summaryMetrics [special "1" "2024-06-03" "Urlaub";
                  regular "2" "2024-06-03" "09:00" "17:00"] Num.zero june24
  = mkSummaryMetrics Num.zero Num.zero Num.zero 1 0 0.
Proof. by_compute. Qed.

Example scenario_on_call :
  summaryMetrics [onCall "1" "2024-05-03"
                    [mkDeployment "a" "x" "22:00" "23:00";
                     mkDeployment "b" "y" "02:00" "02:00"]] Num.zero june24
  = mkSummaryMetrics (Num.ofZ 1) Num.zero (Num.ofZ 1) 0 0 1.
Proof. by_compute. Qed.

(** ** Sums

    Adding 0 changes nothing; beyond that a sum depends on the order of
    its additions. *)

#[global] Instance add_left_id : LeftId (=) Num.zero Num.add.
Proof.
  intros [|x]; [done|]. rewrite zero_eq. unfold Num.add.
  by rewrite bool_decide_eq_true_2.
Qed.

#[global] Instance add_right_id : RightId (=) Num.zero Num.add.
Proof.
  intros [|x]; [done|]. rewrite zero_eq. unfold Num.add.
  case_bool_decide as Hx; [by rewrite Hx|]. by rewrite bool_decide_eq_true_2.
Qed.

Lemma finite_Dbl (x : number) : finite x ↔ ∃ q, x = Dbl q.
Proof. destruct x; unfold finite; simpl; naive_solver. Qed.

Lemma orZero_finite (x : number) : finite x → Num.orZero (Some x) = x.
Proof.
  intros [q ->]%finite_Dbl. unfold Num.orZero, Num.truthy.
  case_bool_decide as Hq; simpl; [|done]. by rewrite Hq, zero_eq.
Qed.

Lemma finite_add (x y : number) : finite x → finite y → finite (x + y)%num.
Proof.
  intros [p ->]%finite_Dbl [q ->]%finite_Dbl. unfold Num.add.
  by repeat case_bool_decide.
Qed.

Lemma finite_orZero (o : option number) : finite (Num.orZero o).
Proof.
  destruct o as [[|q]|]; [done| |done]. by rewrite orZero_finite.
Qed.

Lemma sumFrom_app (acc : number) (l k : list number) :
  sumFrom acc (l ++ k) = sumFrom (sumFrom acc l) k.
Proof. apply fold_left_app. Qed.

Lemma finite_sumFrom (acc : number) (l : list number) :
  finite acc → Forall finite l → finite (sumFrom acc l).
Proof.
  intros Hacc Hl. revert acc Hacc. unfold sumFrom.
  induction Hl as [|x l Hx _ IH]; intros acc Hacc; [done|].
  cbn [fold_left]. by apply IH, finite_add.
Qed.

Lemma finite_nsum (l : list number) : Forall finite l → finite (nsum l).
Proof. by apply finite_sumFrom. Qed.

(** ** Insertion-ordered maps *)

Lemma eqb_decide (a b : string) : String.eqb a b = bool_decide (a = b).
Proof.
  destruct (String.eqb_spec a b).
  - by rewrite bool_decide_eq_true_2.
  - by rewrite bool_decide_eq_false_2.
Qed.

Lemma get_set (k d : string) (v : number) (m : JsMap.t) :
  JsMap.get k (JsMap.set d v m) = if decide (k = d) then Some v else JsMap.get k m.
Proof.
  induction m as [|[k' v'] m IH]; simpl.
  - rewrite eqb_decide. by case_bool_decide; case_decide.
  - rewrite !eqb_decide. destruct (decide (k = d)) as [->|Hkd].
    + case_bool_decide as Hd; simpl; rewrite eqb_decide.
      * by rewrite bool_decide_eq_true_2.
      * by rewrite bool_decide_eq_false_2.
    + case_bool_decide as Hd; simpl; rewrite !eqb_decide.
      * subst k'. by rewrite !bool_decide_eq_false_2.
      * by rewrite IH.
Qed.

(** ** Accumulating spans into a map *)

Lemma filter_none {A} (P : A → Prop) `{∀ x, Decision (P x)} (l : list A) :
  Forall (λ x, ¬ P x) l → filter P l = [].
Proof.
  induction 1 as [|x l Hx _ IH]; [done|].
  by rewrite filter_cons, decide_False, IH by done.
Qed.

Lemma inOrder_snoc (l : list string) (d : string) :
  inOrder (l ++ [d]) = if decide (d ∈ inOrder l) then inOrder l else inOrder l ++ [d].
Proof. unfold inOrder. by rewrite fold_left_app. Qed.

Lemma elem_of_inOrder (l : list string) (d : string) : d ∈ inOrder l ↔ d ∈ l.
Proof.
  induction l as [|x l IH] using rev_ind; [done|].
  rewrite inOrder_snoc. case_decide as Hx; set_solver.
Qed.

Lemma NoDup_inOrder (l : list string) : NoDup (inOrder l).
Proof.
  induction l as [|x l IH] using rev_ind; [constructor|].
  rewrite inOrder_snoc. case_decide as Hx; [done|].
  apply NoDup_app. split_and!; [done | | apply NoDup_singleton].
  by intros y Hy ->%list_elem_of_singleton.
Qed.

Lemma daysOf_snoc (spans : list (string * number)) (d : string) (x : number) :
  daysOf (spans ++ [(d, x)]) =
    if decide (d ∈ spans.*1) then daysOf spans else daysOf spans ++ [d].
Proof.
  unfold daysOf. rewrite fmap_app. csimpl. rewrite inOrder_snoc.
  destruct (decide (d ∈ spans.*1)) as [Hin|Hin].
  - rewrite decide_True; [done | by apply elem_of_inOrder].
  - rewrite decide_False; [done | by rewrite elem_of_inOrder].
Qed.

Lemma hoursOn_snoc (k d : string) (x : number) (spans : list (string * number)) :
  hoursOn k (spans ++ [(d, x)]) =
    if decide (d = k) then (hoursOn k spans + x)%num else hoursOn k spans.
Proof.
  unfold hoursOn, nsum. rewrite filter_app, filter_cons, filter_nil. simpl.
  case_decide; [|by rewrite app_nil_r].
  by rewrite fmap_app, sumFrom_app.
Qed.

Lemma hoursOn_finite (k : string) (spans : list (string * number)) :
  allFinite spans → finite (hoursOn k spans).
Proof.
  intros Hfin. apply finite_nsum, Forall_fmap.
  apply Forall_forall. intros p [_ Hp]%list_elem_of_filter.
  by eapply Forall_forall in Hfin.
Qed.

Lemma get_days (k : string) (g : string → number) (l : list string) :
  JsMap.get k ((λ d, (d, g d)) <$> l) = if decide (k ∈ l) then Some (g k) else None.
Proof.
  induction l as [|d l IH]; csimpl.
  - done.
  - rewrite eqb_decide, IH. case_bool_decide as Hd.
    + subst d. rewrite decide_True; [done | apply elem_of_cons; auto].
    + destruct (decide (k ∈ l)).
      * rewrite decide_True; [done | apply elem_of_cons; auto].
      * rewrite decide_False; [done|]. rewrite elem_of_cons. naive_solver.
Qed.

Lemma set_days (d : string) (v : number) (g : string → number) (l : list string) :
  NoDup l →
  JsMap.set d v ((λ k, (k, g k)) <$> l) =
    if decide (d ∈ l)
    then (λ k, (k, if decide (k = d) then v else g k)) <$> l
    else ((λ k, (k, g k)) <$> l) ++ [(d, v)].
Proof.
  induction 1 as [|k l Hk Hl IH]; csimpl.
  - done.
  - rewrite eqb_decide. case_bool_decide as Hd.
    + subst k. rewrite decide_True by (apply elem_of_cons; auto).
      rewrite decide_True by done. f_equal.
      apply list_fmap_ext. intros _ y Hy%list_elem_of_lookup_2. cbn.
      rewrite decide_False; [done|]. by intros ->.
    + rewrite IH. rewrite (decide_False (P := k = d)) by done.
      destruct (decide (d ∈ l)).
      * rewrite decide_True; [done | apply elem_of_cons; auto].
      * rewrite decide_False; [done|]. rewrite elem_of_cons. naive_solver.
Qed.

Lemma get_dayTotals (k : string) (spans : list (string * number)) :
  JsMap.get k (dayTotals spans) =
    if decide (k ∈ spans.*1) then Some (hoursOn k spans) else None.
Proof.
  unfold dayTotals. rewrite get_days. unfold daysOf.
  destruct (decide (k ∈ spans.*1)) as [Hin|Hin].
  - rewrite decide_True; [done | by apply elem_of_inOrder].
  - rewrite decide_False; [done | by rewrite elem_of_inOrder].
Qed.

(** The map built in insertion order holds one binding per day, in the
    order of the days' first spans, with the day's spans summed in
    their order. *)
Lemma accumulateSpans_dayTotals (spans : list (string * number)) :
  allFinite spans → accumulateSpans spans [] = dayTotals spans.
Proof.
  induction spans as [|[d x] spans IH] using rev_ind; intros Hfin; [done|].
  apply Forall_app in Hfin as [Hfin [Hx _]%Forall_cons]. simpl in Hx.
  unfold accumulateSpans in *. rewrite fold_left_app. cbn [fold_left fst snd].
  rewrite IH by done. unfold addHours. rewrite get_dayTotals.
  unfold dayTotals. rewrite daysOf_snoc.
  rewrite set_days by apply NoDup_inOrder.
  destruct (decide (d ∈ spans.*1)) as [Hin|Hin].
  - rewrite decide_True by (by apply elem_of_inOrder).
    rewrite orZero_finite by (by apply hoursOn_finite).
    apply list_fmap_ext. intros _ k _. cbn. rewrite hoursOn_snoc.
    case_decide as Hk; [subst k; by rewrite decide_True|].
    rewrite decide_False; [done | congruence].
  - rewrite decide_False by (unfold daysOf; by rewrite elem_of_inOrder).
    rewrite fmap_app. cbn [Num.orZero fmap list_fmap]. f_equal.
    + apply list_fmap_ext. intros _ k Hk%list_elem_of_lookup_2. cbn.
      rewrite hoursOn_snoc, decide_False; [done|].
      intros ->. by apply Hin, elem_of_inOrder.
    + rewrite hoursOn_snoc, decide_True by done. do 3 f_equal.
      unfold hoursOn. rewrite filter_none; [done|].
      apply Forall_forall. intros p Hp Hd. apply Hin.
      apply list_elem_of_fmap. exists p. by rewrite Hd.
Qed.

(** ** The second pass as an accumulation of spans *)

Section SecondPass.

Variables vacationDays sickDays : gset string.

Lemma fold_addDeployment (day : string) (deps : list Deployment) (m : JsMap.t) :
  fold_left (addDeployment day) deps m =
    accumulateSpans
      ((λ dep, (day, calculateHours (dep_startTime dep) (dep_endTime dep))) <$> deps) m.
Proof.
  revert m. induction deps as [|dep deps IH]; intros m; [done|].
  csimpl. by rewrite IH.
Qed.

Lemma accumulateSpans_app (s1 s2 : list (string * number)) (m : JsMap.t) :
  accumulateSpans (s1 ++ s2) m = accumulateSpans s2 (accumulateSpans s1 m).
Proof. apply fold_left_app. Qed.

Lemma accumulate_spans (acc : Hours) (entry : Entry) :
  accumulate vacationDays sickDays acc entry =
    mkHours
      (match onCallDate vacationDays sickDays entry with
       | Some d => {[d]} ∪ onCallSet acc
       | None => onCallSet acc
       end)
      (accumulateSpans (option_list (workSpan vacationDays sickDays entry))
         (workHoursByDay acc))
      (accumulateSpans (onCallSpans vacationDays sickDays entry)
         (deploymentHoursByDay acc)).
Proof.
  unfold accumulate, onCallDate, workSpan, onCallSpans.
  destruct (isExcluded _ _ _); [by destruct acc|].
  destruct (String.eqb _ "bereitschaft").
  - destruct (deployments entry) as [deps|]; [|done].
    by rewrite fold_addDeployment.
  - destruct (negb _); [|by destruct acc].
    destruct (Num.gtb _ _); [done | by destruct acc].
Qed.

Lemma fold_accumulate (entries : list Entry) (acc : Hours) :
  fold_left (accumulate vacationDays sickDays) entries acc =
    mkHours
      (list_to_set (omap (onCallDate vacationDays sickDays) entries) ∪ onCallSet acc)
      (accumulateSpans (omap (workSpan vacationDays sickDays) entries)
         (workHoursByDay acc))
      (accumulateSpans (entries ≫= onCallSpans vacationDays sickDays)
         (deploymentHoursByDay acc)).
Proof.
  revert acc. induction entries as [|e entries IH]; intros acc.
  { simpl. rewrite (left_id_L ∅ (∪)). by destruct acc. }
  cbn [fold_left]. rewrite IH, accumulate_spans. cbn [onCallSet workHoursByDay deploymentHoursByDay].
  csimpl. rewrite accumulateSpans_app. f_equal.
  - destruct (onCallDate _ _ e); csimpl; set_solver.
  - by destruct (workSpan _ _ e).
Qed.

Lemma hoursByDay_spans (entries : list Entry) :
  hoursByDay vacationDays sickDays entries =
    mkHours
      (list_to_set (omap (onCallDate vacationDays sickDays) entries))
      (accumulateSpans (omap (workSpan vacationDays sickDays) entries) [])
      (accumulateSpans (entries ≫= onCallSpans vacationDays sickDays) []).
Proof.
  unfold hoursByDay. rewrite fold_accumulate. cbn [onCallSet]. f_equal.
  apply (right_id_L ∅ (∪)).
Qed.

Lemma workSpan_finite (entries : list Entry) :
  allFinite (omap (workSpan vacationDays sickDays) entries).
Proof.
  apply Forall_forall. intros [d x] (e & _ & He)%list_elem_of_omap.
  unfold workSpan in He. repeat case_match; simplify_eq. simpl.
  by destruct (calculateHours _ _).
Qed.

End SecondPass.

(** ** The running totals *)

Lemma monthSpans_cons (monthStr : string) (p : string * number)
    (m : list (string * number)) :
  monthSpans monthStr (p :: m) =
    if Str.startsWith p.1 monthStr then p :: monthSpans monthStr m
    else monthSpans monthStr m.
Proof.
  unfold monthSpans. rewrite filter_cons.
  destruct (Str.startsWith p.1 monthStr); [by rewrite decide_True|].
  by rewrite decide_False.
Qed.

(** Each loop adds to the three running totals in the order of the
    map's bindings. *)
Lemma fold_addWorkDay (monthStr : string) (m : JsMap.t) (t : Totals) :
  fold_left (addWorkDay monthStr) m t =
    mkTotals
      (sumFrom (calculatedOvertime t) ((λ p, p.2 - eight)%num <$> m))
      (sumFrom (monthOvertime t) ((λ p, p.2 - eight)%num <$> monthSpans monthStr m))
      (sumFrom (workTotal t) m.*2).
Proof.
  revert t. unfold sumFrom. induction m as [|[d x] m IH]; intros t.
  { by destruct t. }
  cbn [fold_left]. rewrite IH, monthSpans_cons. cbn [fst snd addWorkDay].
  cbn [calculatedOvertime monthOvertime workTotal].
  by destruct (Str.startsWith d monthStr).
Qed.

Lemma fold_addDeploymentDay (monthStr : string) (m : JsMap.t) (t : Totals) :
  fold_left (addDeploymentDay monthStr) m t =
    mkTotals
      (sumFrom (calculatedOvertime t) m.*2)
      (sumFrom (monthOvertime t) (monthSpans monthStr m).*2)
      (sumFrom (workTotal t) m.*2).
Proof.
  revert t. unfold sumFrom. induction m as [|[d x] m IH]; intros t.
  { by destruct t. }
  cbn [fold_left]. rewrite IH, monthSpans_cons. cbn [fst snd addDeploymentDay].
  cbn [calculatedOvertime monthOvertime workTotal].
  by destruct (Str.startsWith d monthStr).
Qed.

(** ** Classification *)

Lemma classify_decide (loc : string) :
  classify loc =
    let l := locationLower loc in
    if decide (l = "urlaub") then Vacation
    else if decide (l = "krank") then Sick
    else if decide (l = "bereitschaft") then OnCall
    else if decide (l = "pause") then Pause
    else Regular.
Proof.
  unfold classify. cbv zeta. rewrite !eqb_decide.
  repeat (case_bool_decide; [by rewrite decide_True by done|];
          rewrite decide_False by done).
  done.
Qed.

Lemma kind_Vacation (e : Entry) :
  kind e = Vacation ↔ locationLower (location e) = "urlaub".
Proof.
  unfold kind. rewrite classify_decide. cbv zeta.
  repeat case_decide; split; congruence.
Qed.

Lemma kind_Sick (e : Entry) :
  kind e = Sick ↔ locationLower (location e) = "krank".
Proof.
  unfold kind. rewrite classify_decide. cbv zeta.
  repeat case_decide; split; congruence.
Qed.

Lemma kind_OnCall (e : Entry) :
  kind e = OnCall ↔ locationLower (location e) = "bereitschaft".
Proof.
  unfold kind. rewrite classify_decide. cbv zeta.
  repeat case_decide; split; congruence.
Qed.

Lemma kind_Pause (e : Entry) :
  kind e = Pause ↔ locationLower (location e) = "pause".
Proof.
  unfold kind. rewrite classify_decide. cbv zeta.
  repeat case_decide; split; congruence.
Qed.

Lemma kind_Regular (e : Entry) :
  kind e = Regular ↔
  kind e ≠ Vacation ∧ kind e ≠ Sick ∧ kind e ≠ OnCall ∧ kind e ≠ Pause.
Proof. destruct (kind e); naive_solver. Qed.

(** ** The first pass *)

Lemma fold_markDay (entries : list Entry) (vac sick : gset string) :
  fold_left markDay entries (vac, sick) =
    (list_to_set (date <$> filter (λ e, kind e = Vacation) entries) ∪ vac,
     list_to_set (date <$> filter (λ e, kind e = Sick) entries) ∪ sick).
Proof.
  revert vac sick. induction entries as [|e entries IH]; intros vac sick.
  { simpl. by rewrite !(left_id_L ∅ (∪)). }
  cbn [fold_left]. rewrite !filter_cons. unfold markDay at 2.
  rewrite !eqb_decide.
  destruct (decide (kind e = Vacation)) as [Hv|Hv].
  - assert (kind e ≠ Sick) by congruence.
    rewrite bool_decide_eq_true_2 by (by apply kind_Vacation).
    rewrite decide_False by done. rewrite IH. csimpl. f_equal. set_solver.
  - rewrite bool_decide_eq_false_2 by (by rewrite <- kind_Vacation).
    destruct (decide (kind e = Sick)) as [Hs|Hs].
    + rewrite bool_decide_eq_true_2 by (by apply kind_Sick).
      rewrite IH. csimpl. f_equal. set_solver.
    + rewrite bool_decide_eq_false_2 by (by rewrite <- kind_Sick).
      by rewrite IH.
Qed.

Lemma precedenceDays_sets (entries : list Entry) :
  precedenceDays entries =
    (list_to_set (date <$> filter (λ e, kind e = Vacation) entries),
     list_to_set (date <$> filter (λ e, kind e = Sick) entries)).
Proof.
  unfold precedenceDays. rewrite fold_markDay.
  by rewrite !(right_id_L ∅ (∪)).
Qed.

Lemma flagged_true (entries : list Entry) (day : string) :
  flagged entries day = true ↔
  ∃ e, e ∈ entries ∧ date e = day ∧ (kind e = Vacation ∨ kind e = Sick).
Proof.
  unfold flagged. rewrite existsb_exists. unfold hasKind.
  split.
  - intros (e & Hin & He). exists e. rewrite list_elem_of_In.
    apply andb_true_iff in He as [Hd Hk]. apply String.eqb_eq in Hd.
    apply orb_true_iff in Hk. rewrite !bool_decide_eq_true in Hk. done.
  - intros (e & Hin & Hd & Hk). exists e. rewrite <- list_elem_of_In.
    split; [done|]. apply andb_true_iff. split; [by apply String.eqb_eq|].
    apply orb_true_iff. by rewrite !bool_decide_eq_true.
Qed.

Lemma isExcluded_flagged (entries : list Entry) (day : string) :
  isExcluded (precedenceDays entries).1 (precedenceDays entries).2 day
  = flagged entries day.
Proof.
  rewrite precedenceDays_sets. cbn [fst snd]. unfold isExcluded.
  apply eq_true_iff_eq. rewrite orb_true_iff, !bool_decide_eq_true.
  rewrite flagged_true, !elem_of_list_to_set, !list_elem_of_fmap.
  setoid_rewrite list_elem_of_filter. naive_solver.
Qed.

Lemma flagged_own_day (entries : list Entry) (e : Entry) :
  e ∈ entries → flagged entries (date e) = false →
  kind e ≠ Vacation ∧ kind e ≠ Sick.
Proof.
  intros Hin Hf.
  split; intros Hk; apply not_true_iff_false in Hf; apply Hf, flagged_true;
    exists e; auto.
Qed.

(** ** The spans of the code are the spans of the description *)

Section Spans.

Variable entries : list Entry.

Let vac : gset string := vacationSet entries.
Let sick : gset string := sickSet entries.

Lemma workSpan_regularSpan (e : Entry) :
  e ∈ entries →
  workSpan vac sick e =
    if flagged entries (date e) then None else regularSpan e.
Proof.
  intros Hin. unfold workSpan, vac, sick, vacationSet, sickSet. rewrite isExcluded_flagged.
  destruct (flagged entries (date e)) eqn:Hf; [done|].
  destruct (flagged_own_day _ _ Hin Hf) as [Hv Hs].
  unfold regularSpan, hasKind. rewrite !eqb_decide.
  case_bool_decide as Hb.
  { rewrite bool_decide_eq_false_2; [done|].
    apply kind_OnCall in Hb. congruence. }
  case_bool_decide as Hp; simpl.
  { rewrite bool_decide_eq_false_2; [done|].
    apply kind_Pause in Hp. congruence. }
  rewrite bool_decide_eq_true_2; [done|].
  apply kind_Regular. rewrite kind_OnCall, kind_Pause. done.
Qed.

Lemma onCallSpans_deploymentSpansOf (e : Entry) :
  onCallSpans vac sick e =
    if flagged entries (date e) then [] else deploymentSpansOf e.
Proof.
  unfold onCallSpans, vac, sick, vacationSet, sickSet. rewrite isExcluded_flagged.
  destruct (flagged entries (date e)); [done|].
  unfold deploymentSpansOf, hasKind. rewrite eqb_decide.
  by rewrite <- (bool_decide_ext _ _ (kind_OnCall e)).
Qed.

Lemma onCallDate_counted (e : Entry) :
  onCallDate vac sick e =
    if flagged entries (date e) then None
    else if hasKind OnCall e then Some (date e) else None.
Proof.
  unfold onCallDate, vac, sick, vacationSet, sickSet. rewrite isExcluded_flagged.
  destruct (flagged entries (date e)); [done|].
  unfold hasKind. rewrite eqb_decide.
  by rewrite <- (bool_decide_ext _ _ (kind_OnCall e)).
Qed.

Lemma workSpans_regularSpans :
  omap (workSpan vac sick) entries = regularSpans entries.
Proof.
  unfold regularSpans, counted.
  assert (∀ l, l ⊆ entries →
    omap (workSpan vac sick) l =
    omap regularSpan (filter (λ e, flagged entries (date e) = false) l)) as H.
  { induction l as [|e l IH]; intros Hsub; [done|].
    rewrite filter_cons. csimpl.
    rewrite workSpan_regularSpan by set_solver.
    rewrite IH by set_solver.
    destruct (flagged entries (date e)).
    - by rewrite decide_False by done.
    - by rewrite decide_True by done. }
  by apply H.
Qed.

Lemma onCallSpans_deploymentSpans :
  entries ≫= onCallSpans vac sick = deploymentSpans entries.
Proof.
  unfold deploymentSpans, counted.
  assert (∀ l : list Entry,
    l ≫= onCallSpans vac sick =
    filter (λ e, flagged entries (date e) = false) l ≫= deploymentSpansOf) as H.
  { induction l as [|e l IH]; [done|].
    rewrite filter_cons, bind_cons, IH, onCallSpans_deploymentSpansOf.
    destruct (flagged entries (date e)).
    - by rewrite decide_False by done.
    - rewrite decide_True by done. by rewrite bind_cons. }
  apply H.
Qed.

Lemma onCallDates_counted :
  omap (onCallDate vac sick) entries =
    date <$> filter (λ e, kind e = OnCall) (counted entries).
Proof.
  unfold counted.
  assert (∀ l : list Entry,
    omap (onCallDate vac sick) l =
    date <$> filter (λ e, kind e = OnCall)
               (filter (λ e, flagged entries (date e) = false) l)) as H.
  { induction l as [|e l IH]; [done|].
    csimpl. rewrite IH, onCallDate_counted, !filter_cons. unfold hasKind.
    destruct (flagged entries (date e)).
    - by rewrite decide_False by done.
    - rewrite decide_True by done. rewrite filter_cons.
      case_bool_decide.
      + by rewrite decide_True by done.
      + by rewrite decide_False by done. }
  apply H.
Qed.

End Spans.

(** ** The summary computed from the spans of the description *)

Lemma size_list_to_set_dups (l : list string) :
  size (list_to_set (C := gset string) l) = length (remove_dups l).
Proof.
  rewrite <- (size_list_to_set (C := gset string) (remove_dups l))
    by apply NoDup_remove_dups.
  f_equal. apply set_eq. intros x.
  by rewrite !elem_of_list_to_set, elem_of_remove_dups.
Qed.

Lemma summaryMetrics_spans (entries : list Entry) (baseOvertime : number) (now : Now) :
  summaryMetrics entries baseOvertime now =
    let t := totalsOf (currentMonthStr now)
               (accumulateSpans (regularSpans entries) [])
               (accumulateSpans (deploymentSpans entries) []) in
    {| totalOvertime := (calculatedOvertime t + baseOvertime)%num;
       currentMonthOvertime := monthOvertime t;
       totalWorkHours := workTotal t;
       vacationDays := length (datesOfKind Vacation entries);
       sickDays := length (datesOfKind Sick entries);
       onCallDays := length (countedOnCallDates entries) |}.
Proof.
  unfold summaryMetrics.
  rewrite (surjective_pairing (precedenceDays entries)).
  fold (vacationSet entries) (sickSet entries).
  rewrite hoursByDay_spans. cbn [onCallSet workHoursByDay deploymentHoursByDay].
  rewrite workSpans_regularSpans, onCallSpans_deploymentSpans, onCallDates_counted.
  unfold vacationSet, sickSet. rewrite precedenceDays_sets. cbn [fst snd].
  by rewrite !size_list_to_set_dups.
Qed.

Lemma regularSpans_finite (entries : list Entry) : allFinite (regularSpans entries).
Proof. rewrite <- workSpans_regularSpans. apply workSpan_finite. Qed.

Lemma isTimeInput_cases (t : string) :
  isTimeInput t = true → t = "" ∨ ∃ m, parseHHMM t = Some m.
Proof.
  unfold isTimeInput. intros [H|H]%orb_true_iff.
  - left. apply nonEmpty_false. by destruct (Str.nonEmpty t).
  - right. apply bool_decide_eq_true in H as [m Hm]. eauto.
Qed.

Lemma calculateHours_finite (start end_ : string) :
  isTimeInput start = true → isTimeInput end_ = true →
  finite (calculateHours start end_).
Proof.
  intros [->|[s Hs]]%isTimeInput_cases [->|[e He]]%isTimeInput_cases;
    try (rewrite calculateHours_empty by auto; done).
  rewrite (calculateHours_parsed _ _ _ _ Hs He). by case_decide.
Qed.

Lemma deploymentSpans_finite (entries : list Entry) :
  Forall deploymentsTimed entries → allFinite (deploymentSpans entries).
Proof.
  intros Hall. unfold deploymentSpans, allFinite.
  apply Forall_bind. apply Forall_forall. intros e He.
  assert (deploymentsTimed e) as Ht.
  { rewrite Forall_forall in Hall. apply Hall.
    apply list_elem_of_filter in He. tauto. }
  unfold deploymentSpansOf, compose.
  destruct (hasKind OnCall e); [|constructor].
  apply Forall_fmap. eapply Forall_impl; [exact Ht|].
  intros dep [H1 H2]%andb_prop_elim. simpl.
  apply calculateHours_finite; by apply Is_true_eq_true.
Qed.

(** ** Overtime *)

Lemma dayTotals_hours (spans : list (string * number)) :
  (dayTotals spans).*2 = (λ d, hoursOn d spans) <$> daysOf spans.
Proof. unfold dayTotals. by rewrite <- list_fmap_compose. Qed.

Lemma dayTotals_overtime (spans : list (string * number)) :
  (λ p, p.2 - eight)%num <$> dayTotals spans
  = (λ d, (hoursOn d spans - eight)%num) <$> daysOf spans.
Proof. unfold dayTotals. by rewrite <- list_fmap_compose. Qed.

Lemma overtime_spans (monthStr : string) (regular deployment : list (string * number)) :
  allFinite regular → allFinite deployment →
  calculatedOvertime
    (totalsOf monthStr (accumulateSpans regular []) (accumulateSpans deployment []))
  = sumFrom Num.zero
      (((λ d, (hoursOn d regular - eight)%num) <$> daysOf regular)
       ++ ((λ d, hoursOn d deployment) <$> daysOf deployment)).
Proof.
  intros Hr Hd. unfold totalsOf.
  rewrite fold_addDeploymentDay, fold_addWorkDay.
  cbn [calculatedOvertime].
  rewrite (accumulateSpans_dayTotals _ Hr), (accumulateSpans_dayTotals _ Hd).
  by rewrite sumFrom_app, dayTotals_hours, dayTotals_overtime.
Qed.

(** C2 (as the code has it). When every deployment time is empty or a
    valid HH:MM, [totalOvertime] is the running sum, from 0 and rounded
    at each addition, of one term per day with counted Regular hours,
    in the order of the days' first such entries: the day's positive
    Regular hours, summed in the order of the entries, minus 8; then of
    one term per day with counted deployments, in the order of the days'
    first deployments: the day's deployment hours summed in their order;
    and last of the baseline correction. The 8 hours are taken off once
    per day, and never off deployment hours. *)
Theorem totalOvertime_described (entries : list Entry) (baseOvertime : number)
    (now : Now) (Htimed : Forall deploymentsTimed entries) :
  totalOvertime (summaryMetrics entries baseOvertime now)
  = describedOvertime entries baseOvertime.
Proof.
  rewrite summaryMetrics_spans. cbn [totalOvertime].
  rewrite overtime_spans;
    [done | apply regularSpans_finite | by apply deploymentSpans_finite].
Qed.

Lemma workWeek_timed : Forall deploymentsTimed workWeek.
Proof. repeat constructor. Qed.

Lemma totalOvertime_described_witness :
  Forall deploymentsTimed workWeek ∧
  totalOvertime (summaryMetrics workWeek (Num.ofZ 2) june24)
  = describedOvertime workWeek (Num.ofZ 2).
Proof.
  split; [exact workWeek_timed|].
  apply (totalOvertime_described workWeek (Num.ofZ 2) june24 workWeek_timed).
Defined.

Example one_baseline_per_day :
  totalOvertime
    (summaryMetrics [regular "1" "2024-06-03" "07:00" "12:00";
                     regular "2" "2024-06-03" "12:30" "16:00"] Num.zero june24)
  = Fin (Q2Qc (1 # 2)).
Proof. by_compute. Qed.

Example deployments_are_pure_overtime :
  totalOvertime
    (summaryMetrics [onCall "3" "2024-06-04" [mkDeployment "a" "x" "22:00" "23:30"]]
       Num.zero june24)
  = Fin (Q2Qc (3 # 2)).
Proof. by_compute. Qed.

(** C2, as stated, fails in three ways. The sums are rounded at each
    addition: three spans of one day that make six and a half hours give
    an overtime of -1.5000000000000009, not -1.5, and the deployment
    hours are added to the running total day by day, which gives 11.5
    where the total of the days plus the total of the deployments is
    11.499999999999998. A day whose Regular entries have no positive
    span adds nothing, not -8. And the NaN hours of a deployment whose
    time does not parse are dropped by [|| 0] when the next deployment
    of the day is added, so the code yields 1 where the sum is NaN. *)
Lemma totalOvertime_described_counterexample :
  ((regularHours threeSpans =
      [("2024-06-03", Fin (Q2Qc (213 # 60))); ("2024-06-03", Fin (Q2Qc (84 # 60)));
       ("2024-06-03", Fin (Q2Qc (93 # 60)))]
    ∧ (Q2Qc (213 # 60) + Q2Qc (84 # 60) + Q2Qc (93 # 60) - Qc_of_Z 8
       = Q2Qc (-3 # 2))%Qc
    ∧ totalOvertime (summaryMetrics threeSpans Num.zero june24)
      = Dbl (Q2Qc (-1688849860263937 # 1125899906842624))
    ∧ totalOvertime (summaryMetrics threeSpans Num.zero june24)
      ≠ Fin (Q2Qc (-3 # 2)))
   ∧ (totalOvertime (summaryMetrics dayAndCalls Num.zero june24)
      = Dbl (Q2Qc (23 # 2))
      ∧ statedOvertime dayAndCalls Num.zero
        = Dbl (Q2Qc (6473924464345087 # 562949953421312))))
  ∧ (totalOvertime (summaryMetrics endBeforeStart Num.zero june24) = Num.zero
     ∧ statedOvertime endBeforeStart Num.zero = Num.ofZ (-8))
  ∧ (totalOvertime (summaryMetrics mixedDeployments Num.zero june24) = Num.ofZ 1
     ∧ statedOvertime mixedDeployments Num.zero = NaN).
Proof.
  split; [split|split].
  - repeat split; by_compute.
  - split; by_compute.
  - split; by_compute.
  - split; by_compute.
Qed.

(** ** Reordering the entries *)

Lemma flagged_perm (l1 l2 : list Entry) (day : string) :
  l1 ≡ₚ l2 → flagged l1 day = flagged l2 day.
Proof.
  intros Hp. apply eq_true_iff_eq. rewrite !flagged_true.
  by setoid_rewrite Hp.
Qed.

Lemma counted_perm (l1 l2 : list Entry) : l1 ≡ₚ l2 → counted l1 ≡ₚ counted l2.
Proof.
  intros Hp. unfold counted. rewrite Hp.
  erewrite list_filter_iff; [done|].
  intros e. simpl. by rewrite (flagged_perm _ _ _ Hp).
Qed.

Lemma remove_dups_perm (l k : list string) :
  l ≡ₚ k → remove_dups l ≡ₚ remove_dups k.
Proof.
  intros Hp. apply NoDup_Permutation; try apply NoDup_remove_dups.
  intros x. by rewrite !elem_of_remove_dups, Hp.
Qed.

(** C10 (as the code has it). Reordering the entries never changes the
    three day counts. It changes none of the six metrics when it keeps
    the counted Regular spans of positive hours in their order and the
    counted deployments in theirs: Vacation, Sick and Pause entries and
    entries without hours may move freely, and OnCall entries may move
    past Regular ones. *)
Theorem summaryMetrics_permutation (l1 l2 : list Entry) (baseOvertime : number)
    (now : Now) (Hperm : l1 ≡ₚ l2) :
  let m1 := summaryMetrics l1 baseOvertime now in
  let m2 := summaryMetrics l2 baseOvertime now in
  (vacationDays m1 = vacationDays m2
   ∧ sickDays m1 = sickDays m2
   ∧ onCallDays m1 = onCallDays m2)
  ∧ (regularSpans l1 = regularSpans l2 →
     deploymentSpans l1 = deploymentSpans l2 →
     m1 = m2).
Proof.
  cbv zeta. rewrite !summaryMetrics_spans. cbv zeta.
  cbn [vacationDays sickDays onCallDays].
  pose proof (counted_perm _ _ Hperm) as Hc.
  assert (length (datesOfKind Vacation l1) = length (datesOfKind Vacation l2)) as Hv.
  { apply Permutation_length, remove_dups_perm. by rewrite Hperm. }
  assert (length (datesOfKind Sick l1) = length (datesOfKind Sick l2)) as Hs.
  { apply Permutation_length, remove_dups_perm. by rewrite Hperm. }
  assert (length (countedOnCallDates l1) = length (countedOnCallDates l2)) as Ho.
  { apply Permutation_length, remove_dups_perm. by rewrite Hc. }
  split; [done|]. intros -> ->. by rewrite Hv, Hs, Ho.
Qed.

Lemma summaryMetrics_permutation_witness :
  workWeek ≡ₚ workWeekShuffled
  ∧ workWeek ≠ workWeekShuffled
  ∧ summaryMetrics workWeek (Num.ofZ 2) june24
    = summaryMetrics workWeekShuffled (Num.ofZ 2) june24.
Proof.
  assert (workWeek ≡ₚ workWeekShuffled) as Hp.
  { apply NoDup_Permutation; [by_compute | by_compute |].
    intros e. unfold workWeek, workWeekShuffled.
    rewrite !elem_of_cons, !elem_of_nil. tauto. }
  split; [exact Hp|]. split; [discriminate|].
  apply (summaryMetrics_permutation workWeek workWeekShuffled (Num.ofZ 2) june24 Hp);
    reflexivity.
Defined.

(** C10, as stated, fails on three spans of one day, all with valid
    times: summed in the order given they make 6.499999999999999 hours,
    summed in the reverse order 6.5, and the overtime differs with
    them. It fails as well on three days with one span each, and on
    three on-call days with one deployment each: the totals are summed
    in the order of the days' first entries. *)
Lemma summaryMetrics_permutation_counterexample :
  (threeSpans ≡ₚ reverse threeSpans
   ∧ totalWorkHours (summaryMetrics threeSpans Num.zero june24)
     = Dbl (Q2Qc (7318349394477055 # 1125899906842624))
   ∧ totalWorkHours (summaryMetrics (reverse threeSpans) Num.zero june24)
     = Dbl (Q2Qc (13 # 2))
   ∧ totalOvertime (summaryMetrics threeSpans Num.zero june24)
     ≠ totalOvertime (summaryMetrics (reverse threeSpans) Num.zero june24))
  ∧ (threeDays ≡ₚ reverse threeDays
     ∧ totalOvertime (summaryMetrics threeDays Num.zero june24)
       = Dbl (Q2Qc (-42807652708079 # 35184372088832))
     ∧ totalOvertime (summaryMetrics (reverse threeDays) Num.zero june24)
       = Dbl (Q2Qc (-1369844886658527 # 1125899906842624)))
  ∧ (threeCalls ≡ₚ reverse threeCalls
     ∧ totalWorkHours (summaryMetrics threeCalls Num.zero june24)
       = Dbl (Q2Qc (7353533766565889 # 140737488355328))
     ∧ totalWorkHours (summaryMetrics (reverse threeCalls) Num.zero june24)
       = Dbl (Q2Qc (209 # 4))).
Proof.
  split; [|split].
  - split; [symmetry; apply reverse_Permutation|]. repeat split; by_compute.
  - split; [symmetry; apply reverse_Permutation|]. split; by_compute.
  - split; [symmetry; apply reverse_Permutation|]. split; by_compute.
Qed.

Example order_matters_with_NaN :
  badThenGood ≡ₚ goodThenBad
  ∧ totalOvertime (summaryMetrics badThenGood Num.zero june24) = Num.ofZ 1
  ∧ totalOvertime (summaryMetrics goodThenBad Num.zero june24) = NaN.
Proof. split; [apply perm_swap|]. split; by_compute. Qed.

(** ** Vacation and sick days take precedence *)

Lemma filter_all {A} (P : A → Prop) `{∀ x, Decision (P x)} (l : list A) :
  Forall P l → filter P l = l.
Proof.
  induction 1 as [|x l Hx _ IH]; [done|].
  by rewrite filter_cons, decide_True, IH by done.
Qed.

Lemma flagged_counted (entries : list Entry) (day : string) :
  flagged (counted entries) day = false.
Proof.
  apply not_true_iff_false. intros (e & Hin & Hd & Hk)%flagged_true.
  apply list_elem_of_filter in Hin as [Hf Hin].
  apply not_true_iff_false in Hf. apply Hf, flagged_true. by exists e.
Qed.

Lemma counted_idemp (entries : list Entry) :
  counted (counted entries) = counted entries.
Proof.
  unfold counted at 1. apply filter_all, Forall_forall.
  intros e _. apply flagged_counted.
Qed.

Lemma get_accumulateSpans_absent (k : string) (spans : list (string * number))
    (m : JsMap.t) :
  k ∉ spans.*1 → JsMap.get k (accumulateSpans spans m) = JsMap.get k m.
Proof.
  revert m. induction spans as [|[d x] spans IH]; intros m; [done|].
  csimpl. rewrite not_elem_of_cons. intros [Hne Hnotin].
  cbn [accumulateSpans fold_left]. fold (accumulateSpans spans).
  rewrite IH by done. unfold addHours. rewrite get_set.
  by rewrite decide_False.
Qed.

Lemma regularSpans_unflagged (entries : list Entry) (day : string) :
  day ∈ (regularSpans entries).*1 → flagged entries day = false.
Proof.
  intros ([d x] & -> & (e & Hin & He)%list_elem_of_omap)%list_elem_of_fmap.
  apply list_elem_of_filter in Hin as [Hf _].
  unfold regularSpan in He. case_match; simplify_eq. done.
Qed.

Lemma deploymentSpans_unflagged (entries : list Entry) (day : string) :
  day ∈ (deploymentSpans entries).*1 → flagged entries day = false.
Proof.
  intros ([d x] & -> & (e & Hde & Hin)%list_elem_of_bind)%list_elem_of_fmap.
  apply list_elem_of_filter in Hin as [Hf _].
  unfold deploymentSpansOf in Hde. case_match; [|by apply elem_of_nil in Hde].
  apply list_elem_of_fmap in Hde as (dep & [= -> _] & _). done.
Qed.

(** C1. The hours of the entries dated a vacation or sick day are left
    out: no binding for such a day enters either map, and
    [totalWorkHours], [totalOvertime] and [currentMonthOvertime] are those
    of the collection without every entry of such a day, whatever
    Regular or OnCall entries and deployments it holds there. *)
Theorem flagged_days_contribute_nothing (entries : list Entry)
    (baseOvertime : number) (now : Now) :
  let m := summaryMetrics entries baseOvertime now in
  let m' := summaryMetrics (counted entries) baseOvertime now in
  let h := hoursByDay (precedenceDays entries).1 (precedenceDays entries).2 entries in
  (totalWorkHours m = totalWorkHours m'
   ∧ totalOvertime m = totalOvertime m'
   ∧ currentMonthOvertime m = currentMonthOvertime m')
  ∧ ∀ day, flagged entries day = true →
      JsMap.get day (workHoursByDay h) = None
      ∧ JsMap.get day (deploymentHoursByDay h) = None.
Proof.
  cbv zeta. split.
  - rewrite !summaryMetrics_spans. cbv zeta.
    cbn [totalWorkHours totalOvertime currentMonthOvertime].
    unfold regularSpans, deploymentSpans. by rewrite counted_idemp.
  - intros day Hday. fold (vacationSet entries) (sickSet entries).
    rewrite hoursByDay_spans.
    cbn [workHoursByDay deploymentHoursByDay].
    rewrite workSpans_regularSpans, onCallSpans_deploymentSpans.
    split; rewrite get_accumulateSpans_absent; try done.
    + intros Hin%regularSpans_unflagged. congruence.
    + intros Hin%deploymentSpans_unflagged. congruence.
Qed.

Lemma flagged_days_contribute_nothing_witness :
  flagged workWeek "2024-06-05" = true
  ∧ JsMap.get "2024-06-05"
      (workHoursByDay
         (hoursByDay (precedenceDays workWeek).1 (precedenceDays workWeek).2 workWeek))
    = None
  ∧ JsMap.get "2024-06-05"
      (deploymentHoursByDay
         (hoursByDay (precedenceDays workWeek).1 (precedenceDays workWeek).2 workWeek))
    = None.
Proof.
  split; [reflexivity|].
  apply (proj2 (flagged_days_contribute_nothing workWeek Num.zero june24)
           "2024-06-05").
  reflexivity.
Defined.

Example flagged_day_of_the_week :
  flagged workWeek "2024-06-05" = true ∧
  totalWorkHours (summaryMetrics workWeek Num.zero june24) = Num.ofZ 10.
Proof. split; by_compute. Qed.

(** ** Day counts *)

Lemma elem_of_datesOfKind (k : Kind) (entries : list Entry) (day : string) :
  day ∈ datesOfKind k entries ↔ ∃ e, e ∈ entries ∧ kind e = k ∧ date e = day.
Proof.
  unfold datesOfKind. rewrite elem_of_remove_dups, list_elem_of_fmap.
  setoid_rewrite list_elem_of_filter. naive_solver.
Qed.

(** C3 (as the code has it). [vacationDays] and [sickDays] are the
    numbers of distinct dates that carry a Vacation, respectively a Sick
    entry, each date once and the two counts independent of each other
    (a date with entries of both kinds is among the dates of both);
    [onCallDays] is the number of distinct dates that carry an OnCall
    entry and no Vacation or Sick entry. *)
Theorem day_counts (entries : list Entry) (baseOvertime : number) (now : Now) :
  let m := summaryMetrics entries baseOvertime now in
  (vacationDays m = length (datesOfKind Vacation entries)
   ∧ sickDays m = length (datesOfKind Sick entries)
   ∧ onCallDays m = length (countedOnCallDates entries))
  ∧ (NoDup (datesOfKind Vacation entries) ∧ NoDup (datesOfKind Sick entries)
     ∧ NoDup (countedOnCallDates entries))
  ∧ (∀ day, day ∈ datesOfKind Vacation entries ↔
       ∃ e, e ∈ entries ∧ kind e = Vacation ∧ date e = day)
  ∧ (∀ day, day ∈ datesOfKind Sick entries ↔
       ∃ e, e ∈ entries ∧ kind e = Sick ∧ date e = day)
  ∧ (∀ day, day ∈ countedOnCallDates entries ↔
       flagged entries day = false
       ∧ ∃ e, e ∈ entries ∧ kind e = OnCall ∧ date e = day).
Proof.
  cbv zeta. split; [by rewrite summaryMetrics_spans|].
  split; [split_and!; apply NoDup_remove_dups|].
  split; [intros day; apply elem_of_datesOfKind|].
  split; [intros day; apply elem_of_datesOfKind|].
  intros day. unfold countedOnCallDates, counted.
  rewrite elem_of_remove_dups, list_elem_of_fmap.
  split.
  - intros (e & -> & (Hk & (Hf & Hin)%list_elem_of_filter)%list_elem_of_filter).
    eauto.
  - intros (Hf & e & Hin & Hk & <-). exists e. split; [done|].
    by rewrite !list_elem_of_filter.
Qed.

(** C3, as stated, fails for [onCallDays]: an OnCall entry dated a
    vacation day is skipped before its date is recorded. *)
Lemma day_counts_counterexample :
  onCallDays (summaryMetrics onCallOnVacation Num.zero june24) = 0%nat ∧
  length (datesOfKind OnCall onCallOnVacation) = 1%nat.
Proof. split; by_compute. Qed.

Example vacation_and_sick_on_one_day :
  let m := summaryMetrics [special "1" "2024-06-03" "Urlaub";
                           special "2" "2024-06-03" "krank";
                           special "3" "2024-06-03" " URLAUB "] Num.zero june24 in
  vacationDays m = 1%nat ∧ sickDays m = 1%nat.
Proof. split; by_compute. Qed.

(** ** Formatting hours *)

Example formatHours_zero : formatHours Num.zero = "+ 0,00".
Proof. vm_compute. reflexivity. Qed.

Example formatHours_minus_one_and_a_half :
  formatHours (Fin (Q2Qc (-3 # 2))) = "- 1,50".
Proof. vm_compute. reflexivity. Qed.

Example formatHours_minus_an_eighth :
  formatHours (Fin (Q2Qc (-1 # 8))) = "- 0,12".
Proof. vm_compute. reflexivity. Qed.

Example formatHours_an_eighth : formatHours (Fin (Q2Qc (1 # 8))) = "+ 0,13".
Proof. vm_compute. reflexivity. Qed.

Example formatHours_thousands :
  formatHours (Fin (Q2Qc (2469 # 2))) = "+ 1.234,50".
Proof. vm_compute. reflexivity. Qed.

Example formatHours_small_negative :
  formatHours (Fin (Q2Qc (-1 # 250))) = "+ 0,00".
Proof. vm_compute. reflexivity. Qed.

Example formatHours_NaN : formatHours NaN = "+ NaN".
Proof. vm_compute. reflexivity. Qed.













(** ** Display order *)

Example dateValue_epoch : dateValue "1970-01-01" = Some 0.
Proof. reflexivity. Qed.

Example dateValue_june : dateValue "2024-06-03" = Some 1717372800000.
Proof. reflexivity. Qed.

Example dateValue_leap :
  dateValue "2024-02-29" = Some 1709164800000 ∧ dateValue "2023-02-29" = None.
Proof. split; reflexivity. Qed.

Example sortedEntries_mixedWeek :
  id <$> sortedEntries mixedWeek = ["3"; "4"; "2"; "5"; "1"].
Proof. vm_compute. reflexivity. Qed.

Example sortedEntries_threeOnOneDay :
  id <$> sortedEntries threeOnOneDay = ["1"; "2"; "3"].
Proof. vm_compute. reflexivity. Qed.

(** *** The sort returns a reordering *)

Section SortFacts.

Context {A : Type} (comparefn : A → A → number).

Lemma insertBack_perm (x : A) (sorted : list A) :
  JsArray.insertBack comparefn x sorted ≡ₚ x :: sorted.
Proof.
  induction sorted as [|y rest IH]; cbn [JsArray.insertBack]; [done|].
  destruct (Num.gtb (JsArray.sortCompare comparefn y x) Num.zero); [|done].
  rewrite IH. apply perm_swap.
Qed.

Lemma sort_perm (l : list A) : JsArray.sort comparefn l ≡ₚ l.
Proof.
  unfold JsArray.sort. rewrite reverse_Permutation.
  assert (∀ acc, fold_left (λ sorted x, JsArray.insertBack comparefn x sorted) l acc
                 ≡ₚ l ++ acc) as H.
  { induction l as [|x l IH]; intros acc; [done|].
    cbn [fold_left]. rewrite IH, insertBack_perm. simpl.
    by rewrite Permutation_middle. }
  by rewrite H, app_nil_r.
Qed.

End SortFacts.

Lemma sortedEntries_perm (entries : list Entry) : sortedEntries entries ≡ₚ entries.
Proof. apply sort_perm. Qed.

(** C6. The comparator is not an order. Of three entries of one day,
    10:00, a vacation entry and 09:00, the vacation entry has no start
    time and compares equal to both others, while 10:00 compares
    greater than 09:00. Every pair of neighbours comparing equal, the
    sort leaves the three as they are: 10:00 is displayed before 09:00,
    which is not the order by date and start time of the description
    and of the comparator's own comment. *)
Theorem sortedEntries_not_described :
  let a := regular "1" "2024-06-03" "10:00" "12:00" in
  let u := special "2" "2024-06-03" "Urlaub" in
  let b := regular "3" "2024-06-03" "09:00" "10:00" in
  threeOnOneDay = [a; u; b]
  ∧ compareEntries a u = Num.zero
  ∧ compareEntries u b = Num.zero
  ∧ compareEntries a b = Num.ofZ 1
  ∧ sortedEntries threeOnOneDay = threeOnOneDay
  ∧ ¬ describedBefore a b
  ∧ ¬ StronglySorted describedBefore (sortedEntries threeOnOneDay).
Proof.
  cbv zeta. split; [reflexivity|].
  split; [by_compute|]. split; [by_compute|]. split; [by_compute|].
  assert (sortedEntries threeOnOneDay = threeOnOneDay) as Hsame by by_compute.
  split; [exact Hsame|]. rewrite Hsame.
  split; by_compute.
Qed.

(** ** Adding and updating entries *)

Example handleSubmit_officeDay :
  handleSubmit "9" officeDay workWeek
  = (mkEntry "9" "2024-06-03" "Büro" "07:00" "15:30" None None :: workWeek, None).
Proof. vm_compute. reflexivity. Qed.

Example handleSaveChanges_onCallEdit :
  (handleSaveChanges onCallEdit workWeek).1 !! 2%nat
  = Some (mkEntry "3" "2024-06-04" "Bereitschaft" "" "" None
            (Some [mkDeployment "a" "x" "22:00" "23:30"])).
Proof. vm_compute. reflexivity. Qed.

Lemma isSpecialEntry_kind (loc : string) :
  isSpecialEntry loc = true ↔
  classify loc = Vacation ∨ classify loc = Sick ∨ classify loc = OnCall.
Proof.
  unfold isSpecialEntry. rewrite classify_decide. cbv zeta.
  rewrite !eqb_decide, !orb_true_iff, !bool_decide_eq_true.
  repeat case_decide; naive_solver.
Qed.

Lemma isSpecialEntry_false (loc : string) :
  isSpecialEntry loc = false ↔ requiresTimeBounds loc.
Proof.
  rewrite <- not_true_iff_false, isSpecialEntry_kind. unfold requiresTimeBounds.
  destruct (classify loc); naive_solver.
Qed.

Lemma leb_zero_zero : Num.leb Num.zero Num.zero = true.
Proof. by_compute. Qed.

Lemma missing_time_no_hours (s e : string) :
  negb (Str.nonEmpty s) || negb (Str.nonEmpty e) = true →
  Num.leb (calculateHours s e) Num.zero = true.
Proof.
  intros H. unfold calculateHours. rewrite H. apply leb_zero_zero.
Qed.

Lemma validate_rejects (d l s e : string) :
  is_Some (validate d l s e) ↔ rejects d l s e.
Proof.
  unfold validate, rejects. rewrite <- !nonEmpty_false, <- isSpecialEntry_false.
  destruct (Str.nonEmpty d); cbn [negb orb]; [|by split; eauto].
  destruct (Str.nonEmpty l); cbn [negb orb]; [|by split; eauto].
  destruct (isSpecialEntry l); cbn [negb andb].
  { split; [by intros [? ?] | naive_solver]. }
  destruct (negb (Str.nonEmpty s) || negb (Str.nonEmpty e)) eqn:Hmiss.
  { cbn [orb]. rewrite (missing_time_no_hours _ _ Hmiss). split; eauto. }
  cbn [orb]. destruct (Num.leb _ _); split; naive_solver.
Qed.

Lemma validate_None (d l s e : string) :
  validate d l s e = None →
  requiresTimeBounds l → Num.leb (calculateHours s e) Num.zero = false.
Proof.
  intros Hv Hreq. apply not_true_iff_false. intros Hle.
  assert (is_Some (validate d l s e)) as [? ?]; [|congruence].
  apply validate_rejects. unfold rejects. auto.
Qed.

Lemma buildEntry_times (i d l s e : string) (sick : option bool) (has : bool)
    (deps : list Deployment) :
  requiresTimeBounds l →
  startTime (buildEntry i d l s e sick has deps) = s
  ∧ endTime (buildEntry i d l s e sick has deps) = e.
Proof.
  intros Hreq%isSpecialEntry_false. unfold buildEntry. cbn. by rewrite Hreq.
Qed.

Lemma elem_of_handleUpdateEntry (updated e : Entry) (entries : list Entry) :
  e ∈ handleUpdateEntry updated entries → e ∈ entries ∨ e = updated.
Proof.
  unfold handleUpdateEntry. intros (x & -> & Hx)%list_elem_of_fmap.
  destruct (String.eqb (id x) (id updated)); auto.
Qed.

(** C7 (as the code has it). Add and update turn a submission down
    exactly when its date or location is empty, or its kind carries its
    own times (Regular or Pause) and the elapsed hours are not positive;
    a submission turned down leaves the collection as it was, and an
    accepted one never stores such an entry with elapsed hours [<= 0]. *)
Theorem validation_spec (idNow : string) (ne : NewEntry) (fd : FormData)
    (entries : list Entry) :
  let add := handleSubmit idNow ne entries in
  let upd := handleSaveChanges fd entries in
  (is_Some add.2 ↔
     rejects (ne_date ne) (ne_location ne) (ne_startTime ne) (ne_endTime ne))
  ∧ (is_Some add.2 → add.1 = entries)
  ∧ (add.2 = None → ∃ e, add.1 = e :: entries
       ∧ (requiresTimeBounds (location e) →
          Num.leb (calculateHours (startTime e) (endTime e)) Num.zero = false))
  ∧ (is_Some upd.2 ↔
       rejects (fd_date fd) (fd_location fd) (fd_startTime fd) (fd_endTime fd))
  ∧ (is_Some upd.2 → upd.1 = entries)
  ∧ (upd.2 = None → ∀ e, e ∈ upd.1 → e ∈ entries
       ∨ (id e = fd_id fd
          ∧ (requiresTimeBounds (location e) →
             Num.leb (calculateHours (startTime e) (endTime e)) Num.zero = false))).
Proof.
  cbv zeta. unfold handleSubmit, handleSaveChanges.
  rewrite <- !validate_rejects.
  destruct (validate (ne_date ne) _ _ _) as [err|] eqn:Hadd;
    destruct (validate (fd_date fd) _ _ _) as [err'|] eqn:Hupd; cbn [fst snd].
  all: split_and!; try done; try (by intros [? ?]); try (by split; eauto).
  all: try (intros _; eexists; split; [done|]; intros Hreq; cbn in Hreq;
            destruct (buildEntry_times idNow (ne_date ne) _ (ne_startTime ne)
                        (ne_endTime ne) (Some (ne_isChildSick ne))
                        (ne_hasDeployments ne) (ne_deployments ne) Hreq)
              as [-> ->]; by eapply validate_None).
  all: intros _ e [He | ->]%elem_of_handleUpdateEntry; [by left|right].
  all: split; [done|]; intros Hreq; cbn in Hreq.
  all: destruct (buildEntry_times (fd_id fd) (fd_date fd) _ (fd_startTime fd)
                   (fd_endTime fd) (fd_isChildSick fd) (fd_hasDeployments fd)
                   (fd_deployments fd) Hreq) as [-> ->]; by eapply validate_None.
Qed.

Lemma validation_spec_witness :
  (handleSubmit "9" officeDay workWeek).2 = None
  ∧ ∃ e, (handleSubmit "9" officeDay workWeek).1 = e :: workWeek
     ∧ (requiresTimeBounds (location e) →
        Num.leb (calculateHours (startTime e) (endTime e)) Num.zero = false).
Proof.
  split; [reflexivity|].
  apply (proj1 (proj2 (proj2 (validation_spec "9" officeDay onCallEdit workWeek)))).
  reflexivity.
Defined.

(** C7, as stated, fails on a Pause entry without times: it is turned
    down, although its date and location are given and its kind is not
    Regular. *)
Lemma validation_spec_counterexample :
  is_Some (handleSubmit "1" pauseWithoutTimes []).2
  ∧ ¬ describedRejects (ne_date pauseWithoutTimes) (ne_location pauseWithoutTimes)
        (ne_startTime pauseWithoutTimes) (ne_endTime pauseWithoutTimes).
Proof.
  split; [by eexists|].
  intros [H|[H|[H _]]]; vm_compute in H; discriminate.
Qed.

Lemma buildEntry_invariant (i d l s e : string) (sick : option bool) (has : bool)
    (deps : list Deployment) :
  entryInvariant (buildEntry i d l s e sick has deps)
  ∧ (is_Some (deployments (buildEntry i d l s e sick has deps)) → has = true).
Proof.
  unfold entryInvariant, kind, buildEntry. cbn [deployments isChildSick location
    startTime endTime].
  rewrite <- isSpecialEntry_kind.
  pose proof (kind_OnCall (mkEntry i d l s e None None)) as Hoc.
  pose proof (kind_Sick (mkEntry i d l s e None None)) as Hsick.
  unfold kind in Hoc, Hsick. cbn [location] in Hoc, Hsick.
  rewrite !eqb_decide. split_and!.
  - case_bool_decide as Hl; cbn [andb]; [|by intros [? ?]].
    intros _. by apply Hoc.
  - case_bool_decide as Hl; [|by intros [? ?]]. intros _. by apply Hsick.
  - by intros ->.
  - case_bool_decide; cbn [andb]; [|by intros [? ?]].
    destruct has; [done | by intros [? ?]].
Qed.

Lemma buildEntry_fields (i d l s e : string) (sick : option bool) (has : bool)
    (deps : list Deployment) :
  let entry := buildEntry i d l s e sick has deps in
  (kind entry = OnCall → has = true → deployments entry = Some deps)
  ∧ (kind entry = Sick → isChildSick entry = sick).
Proof.
  cbv zeta. unfold kind, buildEntry. cbn [deployments isChildSick location].
  pose proof (kind_OnCall (mkEntry i d l s e None None)) as Hoc.
  pose proof (kind_Sick (mkEntry i d l s e None None)) as Hsick.
  unfold kind in Hoc, Hsick. cbn [location] in Hoc, Hsick.
  rewrite !eqb_decide. split.
  - intros Hk%Hoc ->. by rewrite bool_decide_eq_true_2.
  - intros Hk%Hsick. by rewrite bool_decide_eq_true_2.
Qed.

Lemma handleUpdateEntry_replace (updated : Entry) (entries : list Entry) :
  handleUpdateEntry updated entries
  = (λ x, if decide (id x = id updated) then updated else x) <$> entries.
Proof.
  unfold handleUpdateEntry. apply list_fmap_ext. intros _ x _. cbn.
  rewrite eqb_decide. by case_bool_decide; case_decide.
Qed.

(** C9. A successful add puts one new entry in front of the collection,
    and a successful update puts one entry in the place of every entry
    with the id edited. That entry has the id given out, or edited, and
    the date and location of the form, and it satisfies the invariant
    whatever times, marks and deployments the form holds: it has
    deployments only when it is an OnCall entry and the deployments
    checkbox is set, and then those of the form; it has the child-sick
    field only when it is a Sick entry, and then that of the form; and
    its start and end times are empty when its kind is Vacation, Sick
    or OnCall. *)
Theorem stored_entry_invariant (idNow : string) (ne : NewEntry) (fd : FormData)
    (entries : list Entry) :
  (∀ added, handleSubmit idNow ne entries = (added, None) →
     ∃ e, added = e :: entries
       ∧ (id e = idNow ∧ date e = ne_date ne ∧ location e = ne_location ne)
       ∧ entryInvariant e
       ∧ (is_Some (deployments e) → ne_hasDeployments ne = true)
       ∧ (kind e = OnCall → ne_hasDeployments ne = true →
          deployments e = Some (ne_deployments ne))
       ∧ (kind e = Sick → isChildSick e = Some (ne_isChildSick ne)))
  ∧ (∀ updated, handleSaveChanges fd entries = (updated, None) →
     ∃ e, updated = (λ x, if decide (id x = fd_id fd) then e else x) <$> entries
       ∧ (id e = fd_id fd ∧ date e = fd_date fd ∧ location e = fd_location fd)
       ∧ entryInvariant e
       ∧ (is_Some (deployments e) → fd_hasDeployments fd = true)
       ∧ (kind e = OnCall → fd_hasDeployments fd = true →
          deployments e = Some (fd_deployments fd))
       ∧ (kind e = Sick → isChildSick e = fd_isChildSick fd)).
Proof.
  unfold handleSubmit, handleSaveChanges. split.
  - intros added. destruct (validate _ _ _ _); intros [= <-].
    eexists. split; [done|]. split; [done|].
    split; [apply buildEntry_invariant|]. split; [apply buildEntry_invariant|].
    apply buildEntry_fields.
  - intros updated. destruct (validate _ _ _ _); intros [= <-].
    eexists. split; [apply handleUpdateEntry_replace|]. split; [done|].
    split; [apply buildEntry_invariant|]. split; [apply buildEntry_invariant|].
    apply buildEntry_fields.
Qed.

Lemma stored_entry_invariant_witness :
  (handleSubmit "9" onCallForm workWeek = (storedCall :: workWeek, None)
   ∧ kind storedCall = OnCall ∧ is_Some (deployments storedCall)
   ∧ entryInvariant storedCall)
  ∧ (handleSaveChanges sickEdit workWeek =
       ([regular "1" "2024-06-03" "07:00" "12:00";
         regular "2" "2024-06-03" "12:30" "16:00";
         onCall "3" "2024-06-04" [mkDeployment "a" "x" "22:00" "23:30"];
         storedSick;
         regular "5" "2024-06-05" "07:00" "15:30"], None)
     ∧ kind storedSick = Sick ∧ is_Some (isChildSick storedSick)
     ∧ entryInvariant storedSick).
Proof.
  destruct (stored_entry_invariant "9" onCallForm sickEdit workWeek) as [Hadd Hupd].
  split.
  - split; [reflexivity|]. split; [reflexivity|]. split; [by eexists|].
    destruct (Hadd (storedCall :: workWeek) eq_refl) as (e & [= <-] & _ & Hinv & _).
    exact Hinv.
  - split; [reflexivity|]. split; [reflexivity|]. split; [by eexists|].
    destruct (Hupd _ eq_refl) as (e & Heq & _ & Hinv & _).
    apply (f_equal (λ l, l !! 3%nat)) in Heq. injection Heq as <-.
    exact Hinv.
Defined.

(** ** Loading a document *)

Example load_entriesOnly :
  loadDocument (Some entriesOnly) currentDocument
  = (mkDocument [JObject [("id", JString "5")]; JNull] "" [] Num.zero, None).
Proof. reflexivity. Qed.

Example load_withoutEntries :
  loadDocument (Some withoutEntries) currentDocument
  = (currentDocument, Some invalidFormat).
Proof. reflexivity. Qed.

Lemma asArray_property (data : JSON) (entries : list JSON) :
  asArray (property "entries" data) = Some entries ↔
  hasEntries (Some data) entries.
Proof.
  unfold hasEntries, asArray, property. split.
  - destruct data as [| | | | |fields]; try done.
    destruct (ownProperty "entries" fields) as [[]|] eqn:Hp; try done.
    intros [= <-]. eauto.
  - intros (fields & [= ->] & ->). done.
Qed.

(** C8. Loading a file, once the overwrite is confirmed, keeps the
    current document, whole, and reports an error, unless the parsed data
    has an [entries] field that is an array; when it has, the entries are
    taken as given, and the name, the saved locations and the baseline
    are taken when they are a string, an array and a number, and are "",
    [] and 0 otherwise. *)
Theorem loadDocument_spec (parsed : option JSON) (doc : Document) :
  let loaded := handleFileSelected (Some parsed) true doc in
  ((¬ ∃ entries, hasEntries parsed entries) →
     loaded.1 = doc ∧ is_Some loaded.2)
  ∧ (∀ entries, hasEntries parsed entries →
       loaded =
         ({| doc_entries := entries;
             doc_employeeName := stringField "employeeName" parsed;
             doc_savedLocations := arrayField "savedLocations" parsed;
             doc_baseOvertime := numberField "baseOvertime" parsed |}, None)).
Proof.
  cbv zeta. cbn [handleFileSelected]. split.
  - intros Hno. unfold loadDocument. destruct parsed as [data|]; [|by eauto].
    destruct (asArray (property "entries" data)) as [entries|] eqn:Harr;
      [|by eauto].
    destruct Hno. exists entries. by apply asArray_property.
  - intros entries Hhas. pose proof Hhas as (fields & -> & Hentries).
    apply asArray_property in Hhas. unfold loadDocument. rewrite Hhas.
    unfold stringField, arrayField, numberField, asArray, property.
    repeat f_equal. by destruct (ownProperty "savedLocations" fields) as [[]|].
Qed.

Lemma loadDocument_spec_witness :
  hasEntries (Some entriesOnly) [JObject [("id", JString "5")]; JNull]
  ∧ handleFileSelected (Some (Some entriesOnly)) true currentDocument =
      ({| doc_entries := [JObject [("id", JString "5")]; JNull];
          doc_employeeName := stringField "employeeName" (Some entriesOnly);
          doc_savedLocations := arrayField "savedLocations" (Some entriesOnly);
          doc_baseOvertime := numberField "baseOvertime" (Some entriesOnly) |}, None).
Proof.
  assert (hasEntries (Some entriesOnly) [JObject [("id", JString "5")]; JNull]) as H.
  { eexists. split; reflexivity. }
  split; [exact H|].
  apply (proj2 (loadDocument_spec (Some entriesOnly) currentDocument) _ H).
Defined.

Example cancelled_load_changes_nothing (parsed : option JSON) (doc : Document) :
  handleFileSelected (Some parsed) false doc = (doc, None)
  ∧ handleFileSelected None true doc = (doc, None).
Proof. done. Qed.

(** * Further properties of the code *)

(** ** Time shorthand *)

Example shorthand_examples :
  transformTimeShorthand "7:3" = "07:30"
  ∧ transformTimeShorthand "12:1" = "12:15"
  ∧ transformTimeShorthand "7:5" = "07:05"
  ∧ transformTimeShorthand "0715" = "0715"
  ∧ transformTimeShorthand ":" = "00:00"
  ∧ transformTimeShorthand "1:2:3" = "01:02".
Proof. repeat split. Qed.

Example pause_examples :
  halfAnHourLater "15:30" = "16:00" ∧ halfAnHourLater "23:45" = "00:15"
  ∧ halfAnHourLater "x" = "Inval".
Proof. repeat split. Qed.

Lemma splitColon_cons (s : string) : ∃ h t, splitColon s = h :: t.
Proof.
  induction s as [|c r IH]; simpl; [eauto|].
  destruct (Ascii.eqb c ":"); [eauto|]. destruct IH as (h & t & ->). eauto.
Qed.

Lemma splitColon_noColon (s : string) :
  includesColon s = false → splitColon s = [s].
Proof.
  induction s as [|c r IH]; simpl; [done|].
  destruct (Ascii.eqb c ":"); [done|]. simpl. intros H. by rewrite IH.
Qed.

Lemma splitColon_parts (s : string) :
  Forall (λ p, includesColon p = false) (splitColon s).
Proof.
  induction s as [|c r IH]; simpl; [by repeat constructor|].
  destruct (Ascii.eqb c ":") eqn:Hc; [by constructor|].
  destruct (splitColon r) as [|h t]; [by repeat constructor; simpl; rewrite Hc|].
  apply Forall_cons in IH as [Hh Ht]. constructor; [|done].
  simpl. by rewrite Hc.
Qed.

Lemma splitColon_join (a b : string) :
  includesColon a = false →
  splitColon (a +:+ ":" +:+ b) = a :: splitColon b.
Proof.
  induction a as [|c r IH]; simpl; [done|].
  destruct (Ascii.eqb c ":"); [done|]. simpl. intros H. by rewrite IH.
Qed.

Lemma includesColon_join (a b : string) : includesColon (a +:+ ":" +:+ b) = true.
Proof.
  induction a as [|c r IH]; simpl; [done|]. rewrite IH. apply orb_true_r.
Qed.

Lemma nonEmpty_join (a b : string) : Str.nonEmpty (a +:+ ":" +:+ b) = true.
Proof. by destruct a. Qed.

Lemma padStart2_noColon (s : string) :
  includesColon s = false → includesColon (Str.padStart2 s) = false.
Proof. by destruct s as [|c [|d r]]. Qed.

Lemma padStart2_long (s : string) :
  (2 ≤ String.length s)%nat → Str.padStart2 s = s.
Proof. destruct s as [|c [|d r]]; simpl; (done || lia). Qed.

Lemma padStart2_length (s : string) : (2 ≤ String.length (Str.padStart2 s))%nat.
Proof. destruct s as [|c [|d r]]; simpl; lia. Qed.

Lemma expandMinutes_noColon (s : string) :
  includesColon s = false → includesColon (expandMinutes s) = false.
Proof.
  destruct s as [|c [|d r]]; try done. unfold expandMinutes.
  repeat (destruct (Ascii.eqb c _); [done|]). done.
Qed.

Lemma expandMinutes_long (s : string) :
  (2 ≤ String.length s)%nat → expandMinutes s = s.
Proof. destruct s as [|c [|d r]]; simpl; (done || lia). Qed.

(** The shape of every expansion: two parts without colon, each of two
    characters at least. *)
Lemma transformTimeShorthand_shape (time : string) :
  transformTimeShorthand time = time
  ∨ ∃ h m, transformTimeShorthand time = h +:+ ":" +:+ m
      ∧ includesColon h = false ∧ includesColon m = false
      ∧ (2 ≤ String.length h)%nat ∧ (2 ≤ String.length m)%nat.
Proof.
  unfold transformTimeShorthand.
  destruct (negb (Str.nonEmpty time) || negb (includesColon time)); [by left|].
  pose proof (splitColon_parts time) as Hparts.
  destruct (splitColon time) as [|hours [|minutes rest]]; [by left | by left|].
  apply Forall_cons in Hparts as [Hh [Hm _]%Forall_cons].
  right. eexists _, _. split; [done|].
  split_and!; auto using padStart2_noColon, expandMinutes_noColon, padStart2_length.
Qed.

(** X1. Expanding a time twice gives what expanding it once gives. *)
Theorem transformTimeShorthand_idempotent (time : string) :
  transformTimeShorthand (transformTimeShorthand time)
  = transformTimeShorthand time.
Proof.
  destruct (transformTimeShorthand_shape time)
    as [H | (h & m & -> & Hh & Hm & Lh & Lm)]; [by rewrite !H|].
  unfold transformTimeShorthand.
  rewrite nonEmpty_join, includesColon_join. cbn [negb orb].
  rewrite (splitColon_join _ _ Hh), (splitColon_noColon _ Hm).
  by rewrite (expandMinutes_long _ Lm), !padStart2_long.
Qed.

Lemma digit_not_colon (c : ascii) (x : Z) :
  Str.digit c = Some x → Ascii.eqb c ":" = false.
Proof.
  intros H. destruct (Ascii.eqb_spec c ":") as [->|]; [|done]. discriminate.
Qed.

(** X2. A valid HH:MM time is left as it is. *)
Theorem transformTimeShorthand_valid (time : string) (m : Z)
    (Hvalid : parseHHMM time = Some m) :
  transformTimeShorthand time = time.
Proof.
  destruct time as [|h1 [|h2 [|c rest]]]; try discriminate Hvalid.
  assert (c = ":"%char) as ->.
  { destruct c as [[] [] [] [] [] [] [] []]; try reflexivity;
      discriminate Hvalid. }
  destruct rest as [|m1 [|m2 [|]]]; try discriminate Hvalid.
  simpl in Hvalid. unfold twoDigits in Hvalid.
  destruct (Str.digit h1) as [x1|] eqn:H1; [|done].
  destruct (Str.digit h2) as [x2|] eqn:H2; [|done].
  destruct (Str.digit m1) as [y1|] eqn:M1; [|done].
  destruct (Str.digit m2) as [y2|] eqn:M2; [|done].
  apply digit_not_colon in H1, H2, M1, M2.
  unfold transformTimeShorthand. simpl. rewrite H1, H2, M1, M2. simpl.
  reflexivity.
Qed.

Lemma transformTimeShorthand_valid_witness :
  parseHHMM "07:30" = Some 450 ∧ transformTimeShorthand "07:30" = "07:30".
Proof.
  split; [reflexivity|].
  apply (transformTimeShorthand_valid "07:30" 450). reflexivity.
Defined.

(** X3. An hour from 0 to 23 followed by a colon and one of the digits
    0, 1, 3, 4 expands to a valid time: that hour and 0, 15, 30 or 45
    minutes. *)
Theorem transformTimeShorthand_quarters (h d : Z)
    (Hh : 0 ≤ h ≤ 23) (Hd : d ∈ [0; 1; 3; 4]) :
  parseHHMM (transformTimeShorthand (pretty h +:+ ":" +:+ pretty d))
  = Some (60 * h + quarterMinutes d).
Proof.
  assert (Forall (λ h, Forall (λ d,
            parseHHMM (transformTimeShorthand (pretty h +:+ ":" +:+ pretty d))
            = Some (60 * h + quarterMinutes d)) [0; 1; 3; 4]) (seqZ 0 24)) as Hall
    by by_compute.
  rewrite Forall_forall in Hall. specialize (Hall h).
  rewrite Forall_forall in Hall. apply Hall; [|done].
  apply elem_of_seqZ. lia.
Qed.

Lemma transformTimeShorthand_quarters_witness :
  0 ≤ 7 ≤ 23 ∧ 3 ∈ [0; 1; 3; 4]
  ∧ parseHHMM (transformTimeShorthand (pretty 7 +:+ ":" +:+ pretty 3))
    = Some (60 * 7 + quarterMinutes 3).
Proof.
  assert (3 ∈ [0; 1; 3; 4]) as Hd by set_solver.
  split; [lia|]. split; [exact Hd|].
  apply (transformTimeShorthand_quarters 7 3); [lia | exact Hd].
Defined.

(** ** Pauses *)

(** Writing a time of day as HH:MM and reading it gives the time back. *)
Lemma parseHHMM_hhmm (m : Z) :
  0 ≤ m < 1440 → parseHHMM (hhmm m) = Some m.
Proof.
  intros Hm.
  assert (Forall (λ m, parseHHMM (hhmm m) = Some m) (seqZ 0 1440)) as Hall
    by by_compute.
  rewrite Forall_forall in Hall. apply Hall, elem_of_seqZ. lia.
Qed.

Lemma halfAnHourLater_parsed (t : string) (m : Z) :
  parseHHMM t = Some m → parseHHMM (halfAnHourLater t) = Some ((m + 30) mod 1440).
Proof.
  intros Ht. unfold halfAnHourLater. rewrite Ht.
  apply parseHHMM_hhmm, Z.mod_pos_bound. lia.
Qed.

Lemma half_hour_wrap (m : Z) :
  0 ≤ m ≤ 1440 →
  (m + 30) mod 1440 = if decide (m < 1410) then m + 30 else m + 30 - 1440.
Proof.
  intros Hm. case_decide.
  - apply Z.mod_small. lia.
  - symmetry. apply (Z.mod_unique _ _ 1); lia.
Qed.

(** X4. A pause that starts at a valid time before 23:30 lasts exactly
    half an hour; one that starts at 23:30 or later ends after midnight
    and has no duration. *)
Theorem pause_duration (t : string) (m : Z) (Ht : parseHHMM t = Some m) :
  calculateHours t (halfAnHourLater t) =
    if decide (m < 1410) then Fin (Q2Qc (1 # 2)) else Num.zero.
Proof.
  pose proof (parseHHMM_range _ _ Ht) as Hm.
  rewrite (calculateHours_parsed _ _ m _ Ht (halfAnHourLater_parsed _ _ Ht)).
  rewrite half_hour_wrap by done.
  destruct (decide (m < 1410)) as [Hlt|Hge].
  - rewrite decide_False by lia.
    replace (m + 30 - m)%Z with 30%Z by lia. by_compute.
  - by rewrite decide_True by lia.
Qed.

Lemma pause_duration_witness :
  parseHHMM "15:30" = Some 930
  ∧ calculateHours "15:30" (halfAnHourLater "15:30") =
      if decide (930 < 1410) then Fin (Q2Qc (1 # 2)) else Num.zero.
Proof.
  split; [reflexivity|]. apply (pause_duration "15:30" 930). reflexivity.
Defined.

(** ** Entries that leave the summary alone *)

Lemma flagged_without (l1 l2 : list Entry) (p : Entry) (day : string) :
  kind p ≠ Vacation → kind p ≠ Sick →
  flagged (l1 ++ p :: l2) day = flagged (l1 ++ l2) day.
Proof.
  intros Hv Hs. apply eq_true_iff_eq. rewrite !flagged_true.
  split; intros (e & Hin & Hd & Hk); exists e; (split; [|done]).
  - apply elem_of_app in Hin as [Hin|Hin]; [set_solver|].
    apply elem_of_cons in Hin as [->|Hin]; [by destruct Hk | set_solver].
  - set_solver.
Qed.

Lemma counted_without (l1 l2 : list Entry) (p : Entry) :
  kind p ≠ Vacation → kind p ≠ Sick →
  counted (l1 ++ p :: l2) =
    filter (λ e, flagged (l1 ++ l2) (date e) = false) l1
    ++ filter (λ e, flagged (l1 ++ l2) (date e) = false) [p]
    ++ filter (λ e, flagged (l1 ++ l2) (date e) = false) l2
  ∧ counted (l1 ++ l2) =
    filter (λ e, flagged (l1 ++ l2) (date e) = false) l1
    ++ filter (λ e, flagged (l1 ++ l2) (date e) = false) l2.
Proof.
  intros Hv Hs. unfold counted. split; [|by rewrite filter_app].
  rewrite (list_filter_iff _ (λ e, flagged (l1 ++ l2) (date e) = false)).
  - by rewrite filter_app, (filter_app _ [p] l2).
  - intros e. by rewrite flagged_without.
Qed.

(** An entry that flags no day, has no regular span, no deployment span
    and is not an OnCall entry can be left out of the summary. *)
Lemma summaryMetrics_without (l1 l2 : list Entry) (p : Entry)
    (baseOvertime : number) (now : Now) :
  kind p ≠ Vacation → kind p ≠ Sick → kind p ≠ OnCall →
  regularSpan p = None → deploymentSpansOf p = [] →
  summaryMetrics (l1 ++ p :: l2) baseOvertime now
  = summaryMetrics (l1 ++ l2) baseOvertime now.
Proof.
  intros Hv Hs Ho Hr Hd.
  destruct (counted_without l1 l2 p Hv Hs) as [Hc1 Hc2].
  assert (regularSpans (l1 ++ p :: l2) = regularSpans (l1 ++ l2)) as Hreg.
  { unfold regularSpans. rewrite Hc1, Hc2, !omap_app. do 2 f_equal.
    rewrite filter_cons, filter_nil. case_decide; [|done]. simpl. by rewrite Hr. }
  assert (deploymentSpans (l1 ++ p :: l2) = deploymentSpans (l1 ++ l2)) as Hdep.
  { unfold deploymentSpans. rewrite Hc1, Hc2, !bind_app.
    rewrite filter_cons, filter_nil. case_decide; [|done].
    by rewrite bind_cons, Hd. }
  assert (countedOnCallDates (l1 ++ p :: l2) = countedOnCallDates (l1 ++ l2)) as Hoc.
  { unfold countedOnCallDates. rewrite Hc1, Hc2, !filter_app. do 3 f_equal.
    rewrite (filter_cons _ p), filter_nil. case_decide; [|done].
    by rewrite filter_cons, decide_False. }
  rewrite !summaryMetrics_spans, Hreg, Hdep, Hoc. cbv zeta.
  f_equal.
  - unfold datesOfKind. rewrite !filter_app, filter_cons.
    by rewrite decide_False.
  - unfold datesOfKind. rewrite !filter_app, filter_cons.
    by rewrite decide_False.
Qed.

Lemma summaryMetrics_pause (l1 l2 : list Entry) (p : Entry)
    (baseOvertime : number) (now : Now) :
  kind p = Pause →
  summaryMetrics (l1 ++ p :: l2) baseOvertime now
  = summaryMetrics (l1 ++ l2) baseOvertime now.
Proof.
  intros Hp. apply summaryMetrics_without; try congruence.
  - unfold regularSpan, hasKind. rewrite Hp.
    by rewrite bool_decide_eq_false_2.
  - unfold deploymentSpansOf, hasKind. rewrite Hp.
    by rewrite bool_decide_eq_false_2.
Qed.

(** X5. A Pause entry, wherever it stands in the collection, changes none
    of the six summary metrics. *)
Theorem pause_entries_ignored (l1 l2 : list Entry) (p : Entry)
    (baseOvertime : number) (now : Now) (Hp : kind p = Pause) :
  summaryMetrics (l1 ++ p :: l2) baseOvertime now
  = summaryMetrics (l1 ++ l2) baseOvertime now.
Proof.
  apply summaryMetrics_without; try congruence.
  - unfold regularSpan, hasKind. rewrite Hp.
    by rewrite bool_decide_eq_false_2.
  - unfold deploymentSpansOf, hasKind. rewrite Hp.
    by rewrite bool_decide_eq_false_2.
Qed.

Lemma pause_entries_ignored_witness :
  kind lunchBreak = Pause
  ∧ summaryMetrics (workWeek ++ lunchBreak :: mixedWeek) (Num.ofZ 2) june24
    = summaryMetrics (workWeek ++ mixedWeek) (Num.ofZ 2) june24.
Proof.
  split; [reflexivity|].
  apply (pause_entries_ignored workWeek mixedWeek lunchBreak (Num.ofZ 2) june24).
  reflexivity.
Defined.

(** ** The figure of the current month *)

Lemma get_monthSpans (monthStr k : string) (m : JsMap.t) :
  Str.startsWith k monthStr = true →
  JsMap.get k (monthSpans monthStr m) = JsMap.get k m.
Proof.
  intros Hk. induction m as [|[k' v'] m IH]; [done|].
  rewrite monthSpans_cons. cbn [fst JsMap.get]. rewrite eqb_decide.
  destruct (Str.startsWith k' monthStr) eqn:Hk'; cbn [JsMap.get]; rewrite ?eqb_decide.
  - case_bool_decide; [done | apply IH].
  - case_bool_decide as Hkk; [|apply IH]. subst k'. congruence.
Qed.

Lemma set_monthSpans (monthStr k : string) (v : number) (m : JsMap.t) :
  monthSpans monthStr (JsMap.set k v m) =
    if Str.startsWith k monthStr then JsMap.set k v (monthSpans monthStr m)
    else monthSpans monthStr m.
Proof.
  induction m as [|[k' v'] m IH]; cbn [JsMap.set].
  - rewrite monthSpans_cons. cbn [fst]. by destruct (Str.startsWith k monthStr).
  - rewrite eqb_decide. case_bool_decide as Hkk.
    + subst k'. rewrite !monthSpans_cons. cbn [fst].
      destruct (Str.startsWith k monthStr); [|done].
      cbn [JsMap.set]. by rewrite String.eqb_refl.
    + rewrite !monthSpans_cons, IH. cbn [fst].
      destruct (Str.startsWith k' monthStr), (Str.startsWith k monthStr); try done.
      cbn [JsMap.set]. rewrite eqb_decide. by rewrite bool_decide_eq_false_2.
Qed.

Lemma accumulateSpans_month (monthStr : string) (spans : list (string * number))
    (m : JsMap.t) :
  monthSpans monthStr (accumulateSpans spans m)
  = accumulateSpans (monthSpans monthStr spans) (monthSpans monthStr m).
Proof.
  revert m. induction spans as [|[d x] spans IH]; intros m; [done|].
  cbn [accumulateSpans fold_left]. fold (accumulateSpans spans). rewrite IH.
  cbn [fst snd]. unfold addHours at 1. rewrite set_monthSpans, monthSpans_cons.
  cbn [fst]. destruct (Str.startsWith d monthStr) eqn:Hd; [|done].
  cbn [accumulateSpans fold_left].
  unfold addHours. cbn [fst snd]. by rewrite get_monthSpans.
Qed.

Lemma flagged_month (monthStr : string) (entries : list Entry) (day : string) :
  Str.startsWith day monthStr = true →
  flagged (inMonth monthStr entries) day = flagged entries day.
Proof.
  intros Hday. apply eq_true_iff_eq. rewrite !flagged_true. unfold inMonth.
  split; intros (e & Hin & Hd & Hk); exists e; (split; [|done]).
  - by apply list_elem_of_filter in Hin as [_ Hin].
  - apply list_elem_of_filter. split; [by rewrite Hd | done].
Qed.

Lemma counted_month (monthStr : string) (entries : list Entry) :
  counted (inMonth monthStr entries) = inMonth monthStr (counted entries).
Proof.
  unfold counted. pose proof (flagged_month monthStr entries) as HF.
  set (F := flagged (inMonth monthStr entries)) in *.
  unfold inMonth. rewrite !list_filter_filter.
  apply list_filter_iff. intros e. split.
  - intros [Hf Hm]. split; [done|]. by rewrite <- HF.
  - intros [Hm Hf]. split; [|done]. by rewrite HF.
Qed.

Lemma inMonth_cons (monthStr : string) (e : Entry) (l : list Entry) :
  inMonth monthStr (e :: l) =
    if Str.startsWith (date e) monthStr then e :: inMonth monthStr l
    else inMonth monthStr l.
Proof.
  unfold inMonth. rewrite filter_cons. case_decide as Hp.
  - by rewrite Hp.
  - by apply not_true_is_false in Hp as ->.
Qed.

Lemma regularSpans_month (monthStr : string) (entries : list Entry) :
  regularSpans (inMonth monthStr entries) = monthSpans monthStr (regularSpans entries).
Proof.
  unfold regularSpans. rewrite counted_month.
  induction (counted entries) as [|e l IH]; [done|].
  rewrite inMonth_cons. cbn [omap list_omap]. fold (omap regularSpan l).
  destruct (regularSpan e) as [[d x]|] eqn:Hr.
  - assert (d = date e) as ->.
    { unfold regularSpan in Hr. destruct (_ && _); congruence. }
    rewrite monthSpans_cons. cbn [fst].
    destruct (Str.startsWith (date e) monthStr); [|done].
    cbn [omap list_omap]. fold (omap regularSpan (inMonth monthStr l)).
    by rewrite Hr, IH.
  - destruct (Str.startsWith (date e) monthStr); [|done].
    cbn [omap list_omap]. fold (omap regularSpan (inMonth monthStr l)).
    by rewrite Hr, IH.
Qed.

Lemma monthSpans_app (monthStr : string) (l k : list (string * number)) :
  monthSpans monthStr (l ++ k) = monthSpans monthStr l ++ monthSpans monthStr k.
Proof. apply filter_app. Qed.

Lemma deploymentSpans_month (monthStr : string) (entries : list Entry) :
  deploymentSpans (inMonth monthStr entries)
  = monthSpans monthStr (deploymentSpans entries).
Proof.
  unfold deploymentSpans. rewrite counted_month.
  induction (counted entries) as [|e l IH]; [done|].
  rewrite inMonth_cons, bind_cons, monthSpans_app, <- IH.
  assert (monthSpans monthStr (deploymentSpansOf e) =
            if Str.startsWith (date e) monthStr then deploymentSpansOf e else []) as ->.
  { unfold deploymentSpansOf. destruct (hasKind OnCall e).
    - induction (default [] (deployments e)) as [|dep deps IHd].
      + by destruct (Str.startsWith (date e) monthStr).
      + csimpl. rewrite monthSpans_cons, IHd. cbn [fst].
        by destruct (Str.startsWith (date e) monthStr).
    - by destruct (Str.startsWith (date e) monthStr). }
  destruct (Str.startsWith (date e) monthStr); [|done]. by rewrite bind_cons.
Qed.

(** X6. The overtime of the current month is the total overtime the
    summary computes, without baseline correction, from the entries
    dated in that month alone. *)
Theorem month_overtime (entries : list Entry) (baseOvertime : number) (now : Now) :
  currentMonthOvertime (summaryMetrics entries baseOvertime now)
  = totalOvertime (summaryMetrics (inMonth (currentMonthStr now) entries) Num.zero now).
Proof.
  rewrite !summaryMetrics_spans. cbv zeta. cbn [currentMonthOvertime totalOvertime].
  rewrite add_right_id, regularSpans_month, deploymentSpans_month.
  unfold totalsOf. rewrite !fold_addDeploymentDay, !fold_addWorkDay.
  cbn [monthOvertime calculatedOvertime].
  by rewrite <- !(accumulateSpans_month _ _ []).
Qed.

(** ** Appending a pause *)

Lemma find_split {A} (f : A → bool) (l : list A) (x : A) :
  List.find f l = Some x →
  ∃ l1 l2, l = l1 ++ x :: l2 ∧ f x = true ∧ Forall (λ y, f y = false) l1.
Proof.
  induction l as [|y l IH]; [done|]. cbn [List.find].
  destruct (f y) eqn:Hy.
  - intros [= ->]. by exists [], l.
  - intros (l1 & l2 & -> & Hx & Hl1)%IH. exists (y :: l1), l2.
    split; [done|]. split; [done|]. by constructor.
Qed.

Lemma find_None {A} (f : A → bool) (l : list A) :
  List.find f l = None ↔ Forall (λ y, f y = false) l.
Proof.
  induction l as [|y l IH]; cbn [List.find].
  - split; [constructor | done].
  - rewrite Forall_cons. destruct (f y); [|tauto].
    split; [done | by intros [? _]].
Qed.

Lemma isWorkEntryWithEnd_kind (e : Entry) :
  isWorkEntryWithEnd e = true ↔ kind e = Regular ∧ endTime e ≠ "".
Proof.
  unfold isWorkEntryWithEnd, kind. rewrite classify_decide. cbv zeta.
  rewrite !andb_true_iff, !negb_true_iff, !eqb_decide, !bool_decide_eq_false.
  rewrite nonEmpty_true. repeat case_decide; naive_solver.
Qed.

Lemma handleAddPauseOn_found (sorted : list Entry) (idNow : string)
    (entries : list Entry) (w : Entry) :
  List.find isWorkEntryWithEnd (reverse sorted) = Some w →
  handleAddPauseOn sorted idNow entries =
    (entries ++ [mkEntry idNow (date w) "Pause" (endTime w)
                   (halfAnHourLater (endTime w)) None None], None).
Proof. unfold handleAddPauseOn. by intros ->. Qed.

(** X8. Whatever reordering of the collection is displayed, adding a
    pause raises the alert and leaves the collection as it is exactly
    when no entry of kind Regular has an end time. Otherwise it shows no
    alert and appends one entry to the collection: a pause with the id
    given out, located "Pause", that has the date of an entry of kind
    Regular with an end time, starts at that end time and ends half an
    hour later. *)
Theorem handleAddPause_alert (idNow : string) (entries sorted : list Entry)
    (Hperm : sorted ≡ₚ entries) :
  (handleAddPauseOn sorted idNow entries = (entries, Some noWorkEntryAlert)
   ↔ Forall (λ e, ¬ (kind e = Regular ∧ endTime e ≠ "")) entries)
  ∧ (handleAddPauseOn sorted idNow entries = (entries, Some noWorkEntryAlert)
     ∨ ∃ w, w ∈ entries ∧ kind w = Regular ∧ endTime w ≠ ""
         ∧ handleAddPauseOn sorted idNow entries =
             (entries ++ [mkEntry idNow (date w) "Pause" (endTime w)
                            (halfAnHourLater (endTime w)) None None], None)).
Proof.
  destruct (List.find isWorkEntryWithEnd (reverse sorted)) as [w|] eqn:Hfind.
  - pose proof (handleAddPauseOn_found sorted idNow entries w Hfind) as Hadd.
    pose proof Hfind as (l1 & l2 & Hrev & [Hkw Hew]%isWorkEntryWithEnd_kind & _)%find_split.
    assert (w ∈ entries) as Hin.
    { rewrite <- Hperm, <- (reverse_Permutation sorted), Hrev. set_solver. }
    split; [|right; by exists w]. rewrite Hadd. split; [done|].
    intros Hnone. eapply Forall_forall in Hnone; [|exact Hin]. by destruct Hnone.
  - assert (handleAddPauseOn sorted idNow entries = (entries, Some noWorkEntryAlert))
      as Halert by (unfold handleAddPauseOn; by rewrite Hfind).
    split; [|by left]. split; [|done]. intros _.
    apply find_None in Hfind. rewrite reverse_Permutation, Hperm in Hfind.
    eapply Forall_impl; [exact Hfind|]. intros e He Hk.
    apply isWorkEntryWithEnd_kind in Hk. congruence.
Qed.

Lemma handleAddPause_alert_witness :
  sortedEntries onCallOnVacation ≡ₚ onCallOnVacation
  ∧ Forall (λ e, ¬ (kind e = Regular ∧ endTime e ≠ "")) onCallOnVacation
  ∧ handleAddPause "9" onCallOnVacation = (onCallOnVacation, Some noWorkEntryAlert).
Proof.
  assert (Forall (λ e, ¬ (kind e = Regular ∧ endTime e ≠ "")) onCallOnVacation) as Hnone.
  { repeat constructor; by intros [? _]. }
  split; [apply sortedEntries_perm|]. split; [exact Hnone|].
  apply (handleAddPause_alert "9" onCallOnVacation (sortedEntries onCallOnVacation)
           (sortedEntries_perm onCallOnVacation)).
  exact Hnone.
Defined.

Example handleAddPause_workWeek :
  handleAddPause "9" workWeek =
    (workWeek ++ [mkEntry "9" "2024-06-05" "Pause" "15:30" "16:00" None None], None).
Proof. by_compute. Qed.

Example handleAddPause_no_work :
  handleAddPause "9" onCallOnVacation = (onCallOnVacation, Some noWorkEntryAlert).
Proof. by_compute. Qed.

(** *** The latest work entry *)

Lemma digit_range (c : ascii) (x : Z) : Str.digit c = Some x → 0 ≤ x ≤ 9.
Proof.
  unfold Str.digit.
  destruct ((48 <=? nat_of_ascii c)%nat && (nat_of_ascii c <=? 57)%nat) eqn:E;
    [|done].
  apply andb_prop in E as [E1%Nat.leb_le E2%Nat.leb_le]. intros [= <-]. lia.
Qed.

Lemma twoDigits_range (a b : ascii) (x : Z) : twoDigits a b = Some x → 0 ≤ x ≤ 99.
Proof.
  unfold twoDigits.
  destruct (Str.digit a) as [p|] eqn:Ha, (Str.digit b) as [q|] eqn:Hb; try done.
  apply digit_range in Ha, Hb. intros [= <-]. lia.
Qed.

Lemma daysFromCivil_range (y m d : Z) :
  0 ≤ y ≤ 9999 → 1 ≤ m ≤ 12 → 0 ≤ d ≤ 99 →
  -1000000 < daysFromCivil y m d < 4000000.
Proof.
  intros Hy Hm Hd. unfold daysFromCivil. cbv zeta.
  destruct (m <=? 2) eqn:E; [apply Z.leb_le in E | apply Z.leb_gt in E];
    Z.div_mod_to_equations; lia.
Qed.

(** Time values of dates are integers far below [2^52]. *)
Lemma dateValue_range (s : string) (z : Z) :
  dateValue s = Some z → - 2 ^ 52 < z < 2 ^ 52.
Proof.
  unfold dateValue. intros H.
  repeat (match type of H with
          | match ?s with EmptyString => _ | String _ _ => _ end = _ =>
              destruct s; try discriminate H
          | (if Ascii.eqb _ _ then _ else _) = _ => idtac
          end).
  revert H. repeat case_match; try discriminate. intros [= <-].
  match goal with
  | H1 : fourDigits _ _ _ _ = Some ?y, H2 : twoDigits _ _ = Some ?m,
    H3 : twoDigits _ _ = Some ?d |- _ =>
      unfold fourDigits in H1; revert H1; repeat case_match; try discriminate;
      intros [= <-]
  end.
  repeat match goal with
  | H : twoDigits _ _ = Some _ |- _ => apply twoDigits_range in H
  end.
  match goal with
  | H : _ && _ && _ && _ = true |- _ =>
      apply andb_prop in H as [[[Em1%Z.leb_le Em2%Z.leb_le]%andb_prop _]%andb_prop _]
  end.
  match goal with
  | |- _ < daysFromCivil ?y ?m ?d * _ < _ =>
      pose proof (daysFromCivil_range y m d ltac:(lia) ltac:(lia) ltac:(lia))
  end.
  lia.
Qed.
Lemma isBereitschaft_kind (e : Entry) : isBereitschaft e = true ↔ kind e = OnCall.
Proof.
  unfold isBereitschaft. rewrite eqb_decide, bool_decide_eq_true.
  symmetry. apply kind_OnCall.
Qed.

(** Between two entries of kind Regular with valid dates the comparator
    reports the later date as greater. *)
Lemma notAfter_dates (a b : Entry) (da db : Z) :
  kind a = Regular → kind b = Regular →
  dateValue (date a) = Some da → dateValue (date b) = Some db →
  notAfter a b → da ≤ db.
Proof.
  intros Ha Hb Hda Hdb. unfold notAfter, compareEntries, dateTime.
  assert (isBereitschaft a = false) as ->.
  { apply not_true_iff_false. rewrite isBereitschaft_kind. congruence. }
  assert (isBereitschaft b = false) as ->.
  { apply not_true_iff_false. rewrite isBereitschaft_kind. congruence. }
  cbn [andb negb]. rewrite Hda, Hdb.
  pose proof (dateValue_range _ _ Hda) as Ra.
  pose proof (dateValue_range _ _ Hdb) as Rb.
  rewrite !ofZ_exact by lia. cbn [strictNe].
  case_bool_decide as Heq; cbn [negb].
  - apply Z2Qc_inj in Heq. lia.
  - unfold Num.sub. rewrite <- Z2Qc_inj_sub, Fin_Z by lia.
    rewrite zero_eq. unfold Num.gtb. cbn [Num.ltb].
    rewrite bool_decide_eq_false, <- Z2Qc_inj_0, <- Z2Qc_inj_lt. lia.
Qed.

(** X9. Let the displayed list be a reordering of the collection in
    which no entry compares greater than a later one, as a sort by the
    comparator returns whenever the comparator is consistent on the
    entries. When the dates are valid and some entry of kind Regular has
    an end time, the pause appended starts at the end time of such an
    entry and has its date, and no entry of kind Regular with an end
    time has a later date. *)
Theorem handleAddPause_latest (idNow : string) (entries sorted : list Entry)
    (Hperm : sorted ≡ₚ entries)
    (Hsorted : StronglySorted notAfter sorted)
    (Hdates : Forall validDate entries)
    (Hwork : Exists (λ e, kind e = Regular ∧ endTime e ≠ "") entries) :
  ∃ w, w ∈ entries ∧ kind w = Regular ∧ endTime w ≠ ""
    ∧ (∀ e, e ∈ entries → kind e = Regular → endTime e ≠ "" →
            dateKey e ≤ dateKey w)
    ∧ handleAddPauseOn sorted idNow entries =
        (entries ++ [mkEntry idNow (date w) "Pause" (endTime w)
                       (halfAnHourLater (endTime w)) None None], None).
Proof.
  destruct (List.find isWorkEntryWithEnd (reverse sorted)) as [w|] eqn:Hfind.
  2: { apply find_None in Hfind. rewrite reverse_Permutation, Hperm in Hfind.
       apply Exists_exists in Hwork as (e & Hin & He).
       apply isWorkEntryWithEnd_kind in He.
       eapply Forall_forall in Hfind; [|done]. congruence. }
  exists w. pose proof Hfind as (l1 & l2 & Hrev & Hw & Hl1)%find_split.
  apply isWorkEntryWithEnd_kind in Hw as Hw'. destruct Hw' as [Hkw Hew].
  assert (sorted = reverse l2 ++ w :: reverse l1) as Hlist.
  { rewrite <- (reverse_involutive sorted), Hrev.
    by rewrite reverse_app, reverse_cons, <- app_assoc. }
  assert (w ∈ entries) as Hin by (rewrite <- Hperm, Hlist; set_solver).
  split; [done|]. split; [done|]. split; [done|].
  split; [|by apply handleAddPauseOn_found].
  intros e He Hke Hee.
  assert (isWorkEntryWithEnd e = true) as Hwe by by apply isWorkEntryWithEnd_kind.
  rewrite Forall_forall in Hdates.
  destruct (Hdates e He) as [de Hde]. destruct (Hdates w Hin) as [dw Hdw].
  unfold dateKey. rewrite Hde, Hdw. cbn.
  rewrite <- Hperm, Hlist in He. apply elem_of_app in He as [He|He].
  - rewrite Hlist in Hsorted.
    assert (notAfter e w) as Hew'.
    { apply (StronglySorted_app_1_elem_of _ _ _ e w Hsorted He). set_solver. }
    exact (notAfter_dates e w de dw Hke Hkw Hde Hdw Hew').
  - apply elem_of_cons in He as [->|He]; [by simplify_eq|].
    rewrite elem_of_reverse in He. eapply Forall_forall in Hl1; [|done]. congruence.
Qed.

Lemma workWeek_dates : Forall validDate workWeek.
Proof. repeat constructor; by eexists. Qed.

Lemma handleAddPause_latest_witness :
  sortedEntries workWeek ≡ₚ workWeek
  ∧ StronglySorted notAfter (sortedEntries workWeek)
  ∧ ∃ w, w ∈ workWeek ∧ kind w = Regular ∧ endTime w ≠ ""
    ∧ (∀ e, e ∈ workWeek → kind e = Regular → endTime e ≠ "" →
            dateKey e ≤ dateKey w)
    ∧ handleAddPauseOn (sortedEntries workWeek) "9" workWeek =
        (workWeek ++ [mkEntry "9" (date w) "Pause" (endTime w)
                        (halfAnHourLater (endTime w)) None None], None).
Proof.
  assert (StronglySorted notAfter (sortedEntries workWeek)) as Hs by by_compute.
  split; [apply sortedEntries_perm|]. split; [exact Hs|].
  apply (handleAddPause_latest "9" workWeek (sortedEntries workWeek)
           (sortedEntries_perm workWeek) Hs workWeek_dates).
  apply Exists_cons_hd. split; [reflexivity | discriminate].
Defined.

(** X10. Adding a pause never changes any of the summary metrics. *)
Theorem handleAddPause_summary (idNow : string) (entries : list Entry)
    (baseOvertime : number) (now : Now) :
  summaryMetrics (handleAddPause idNow entries).1 baseOvertime now
  = summaryMetrics entries baseOvertime now.
Proof.
  unfold handleAddPause, handleAddPauseOn. destruct (List.find _ _) as [w|]; [|done].
  cbn [fst]. rewrite summaryMetrics_pause by reflexivity.
  by rewrite app_nil_r.
Qed.

(** ** The collection under add, delete and edit *)

Lemma handleDeleteEntry_fresh (i : string) (entries : list Entry) :
  i ∉ (id <$> entries) → handleDeleteEntry i entries = entries.
Proof.
  intros Hfresh. unfold handleDeleteEntry. apply filter_all.
  apply Forall_forall. intros e He <-. apply Hfresh.
  apply list_elem_of_fmap. eauto.
Qed.

(** X11. Deleting the id just given out undoes the submission: when no
    entry of the collection has the id of the new entry, add followed by
    delete gives the collection back, whether the submission was taken or
    turned down. *)
Theorem add_then_delete (idNow : string) (newEntry : NewEntry) (entries : list Entry)
    (Hfresh : idNow ∉ (id <$> entries)) :
  handleDeleteEntry idNow (handleSubmit idNow newEntry entries).1 = entries.
Proof.
  unfold handleSubmit. destruct (validate _ _ _ _); cbn [fst].
  - by apply handleDeleteEntry_fresh.
  - unfold handleDeleteEntry. rewrite filter_cons.
    rewrite decide_False by (by intros H; apply H).
    by apply handleDeleteEntry_fresh.
Qed.

Lemma add_then_delete_witness :
  ("9" ∉ id <$> workWeek)
  ∧ handleDeleteEntry "9" (handleSubmit "9" officeDay workWeek).1 = workWeek.
Proof.
  assert ("9" ∉ (id <$> workWeek)) as Hfresh by by_compute.
  split; [done|]. apply (add_then_delete "9" officeDay workWeek Hfresh).
Defined.

Lemma handleUpdateEntry_ids (updated : Entry) (entries : list Entry) :
  id <$> handleUpdateEntry updated entries = id <$> entries.
Proof.
  unfold handleUpdateEntry. rewrite <- list_fmap_compose.
  apply list_fmap_ext. intros _ e _. cbn.
  destruct (String.eqb_spec (id e) (id updated)); done.
Qed.

(** X12. Saving an edit never changes which ids the collection holds,
    nor their order: every position keeps its id, so a collection
    without a repeated id stays one. *)
Theorem handleSaveChanges_ids (formData : FormData) (entries : list Entry) :
  id <$> (handleSaveChanges formData entries).1 = id <$> entries
  ∧ (uniqueIds entries → uniqueIds (handleSaveChanges formData entries).1).
Proof.
  assert (id <$> (handleSaveChanges formData entries).1 = id <$> entries) as H.
  { unfold handleSaveChanges. destruct (validate _ _ _ _); [done|].
    apply handleUpdateEntry_ids. }
  split; [done|]. unfold uniqueIds. by rewrite H.
Qed.

Lemma handleSaveChanges_ids_witness :
  uniqueIds workWeek ∧ uniqueIds (handleSaveChanges onCallEdit workWeek).1.
Proof.
  assert (uniqueIds workWeek) as Huniq by by_compute.
  split; [exact Huniq|].
  apply (proj2 (handleSaveChanges_ids onCallEdit workWeek) Huniq).
Defined.

Lemma uniqueIds_same (entries : list Entry) (a b : Entry) :
  uniqueIds entries → a ∈ entries → b ∈ entries → id a = id b → a = b.
Proof.
  unfold uniqueIds. induction entries as [|x l IH]; csimpl.
  { intros _ Ha. by apply elem_of_nil in Ha. }
  intros [Hx Hl]%NoDup_cons [->|Ha]%elem_of_cons [->|Hb]%elem_of_cons Hid.
  - done.
  - destruct Hx. rewrite Hid. apply list_elem_of_fmap. eauto.
  - destruct Hx. rewrite <- Hid. apply list_elem_of_fmap. eauto.
  - by apply IH.
Qed.

Lemma handleUpdateEntry_same (e : Entry) (entries : list Entry) :
  uniqueIds entries → e ∈ entries → handleUpdateEntry e entries = entries.
Proof.
  intros Huniq He. unfold handleUpdateEntry.
  rewrite <- (list_fmap_id entries) at 2. apply list_fmap_ext.
  intros _ x Hx%list_elem_of_lookup_2. cbn.
  destruct (String.eqb_spec (id x) (id e)) as [Hid|]; [|done].
  symmetry. by apply (uniqueIds_same entries).
Qed.

Lemma buildEntry_openEditModal (e : Entry) :
  entryInvariant e → deployments e ≠ Some [] →
  buildEntry (fd_id (openEditModal e)) (fd_date (openEditModal e))
    (fd_location (openEditModal e)) (fd_startTime (openEditModal e))
    (fd_endTime (openEditModal e)) (fd_isChildSick (openEditModal e))
    (fd_hasDeployments (openEditModal e)) (fd_deployments (openEditModal e)) = e.
Proof.
  intros (Hdeps & Hsick & Htimes) Hne. destruct e as [i d l s t sick deps].
  unfold openEditModal, buildEntry, entryInvariant in *.
  cbn [fd_id fd_date fd_location fd_startTime fd_endTime fd_isChildSick
       fd_hasDeployments fd_deployments id date location startTime endTime
       isChildSick deployments] in *.
  pose proof (isSpecialEntry_kind l) as Hspecial.
  pose proof (kind_OnCall (mkEntry i d l s t sick deps)) as Hoc.
  pose proof (kind_Sick (mkEntry i d l s t sick deps)) as Hsk.
  unfold kind in *. cbn [location] in *. rewrite !eqb_decide.
  f_equal.
  - destruct (isSpecialEntry l); [|done]. symmetry. by apply Htimes, Hspecial.
  - destruct (isSpecialEntry l); [|done]. symmetry. by apply Htimes, Hspecial.
  - case_bool_decide as Hl; [done|]. destruct sick as [b|]; [|done].
    destruct Hl. by apply Hsk, Hsick.
  - destruct deps as [[|dep deps]|]; [done | | by rewrite andb_false_r].
    rewrite bool_decide_eq_true_2; [done|]. by apply Hoc, Hdeps.
Qed.

(** X13. Opening the edit dialog on a stored entry and saving at once
    leaves the collection as it is, provided no other entry shares the
    id, the entry passes the validation, satisfies the invariant of the
    data model and does not carry an empty deployment list. *)
Theorem edit_without_change (e : Entry) (entries : list Entry)
    (Hin : e ∈ entries) (Huniq : uniqueIds entries)
    (Hvalid : validate (date e) (location e) (startTime e) (endTime e) = None)
    (Hinv : entryInvariant e) (Hdeps : deployments e ≠ Some []) :
  handleSaveChanges (openEditModal e) entries = (entries, None).
Proof.
  unfold handleSaveChanges.
  rewrite buildEntry_openEditModal by done.
  cbn [openEditModal fd_date fd_location fd_startTime fd_endTime].
  rewrite Hvalid. by rewrite handleUpdateEntry_same.
Qed.

Lemma workWeek_uniqueIds : uniqueIds workWeek.
Proof. by_compute. Qed.

Lemma nightCall_invariant :
  entryInvariant (onCall "3" "2024-06-04" [mkDeployment "a" "x" "22:00" "23:30"]).
Proof.
  split; [done|]. split; [by intros [? ?] | done].
Qed.

Lemma edit_without_change_witness :
  handleSaveChanges
    (openEditModal (onCall "3" "2024-06-04" [mkDeployment "a" "x" "22:00" "23:30"]))
    workWeek
  = (workWeek, None).
Proof.
  apply (edit_without_change
           (onCall "3" "2024-06-04" [mkDeployment "a" "x" "22:00" "23:30"]) workWeek).
  - unfold workWeek. set_solver.
  - exact workWeek_uniqueIds.
  - reflexivity.
  - exact nightCall_invariant.
  - discriminate.
Defined.

(** ** Deployments and the entry form *)

(** X14. A deployment typed with a place and two valid times of day is
    taken exactly when it starts before it ends; it is then appended
    with the id given out and the fields are cleared. Otherwise the
    list and the fields stay and the error is shown. *)
Theorem handleAddDeployment_spec (idNow loc start end_ : string) (s e : Z)
    (deployments : list Deployment)
    (Hloc : loc ≠ "") (Hs : parseHHMM start = Some s) (He : parseHHMM end_ = Some e) :
  handleAddDeployment idNow (mkCurrentDeployment loc start end_) deployments =
    if decide (s < e)
    then (deployments ++ [mkDeployment idNow loc start end_], emptyDeployment, None)
    else (deployments, mkCurrentDeployment loc start end_, Some deploymentError).
Proof.
  unfold handleAddDeployment.
  cbn [cd_location cd_startTime cd_endTime].
  apply nonEmpty_true in Hloc. rewrite Hloc.
  rewrite (parseHHMM_nonEmpty _ _ Hs), (parseHHMM_nonEmpty _ _ He).
  rewrite (calculateHours_parsed _ _ s e Hs He). cbn [negb orb].
  destruct (decide (e ≤ s)) as [Hle|Hgt].
  - rewrite leb_zero_zero. by rewrite decide_False by lia.
  - rewrite decide_True by lia.
    assert (Num.leb (Fin (Qc_of_Z (e - s) / Qc_of_Z 60)) Num.zero = false) as ->;
      [|done].
    rewrite zero_eq. unfold Fin. cbn [Num.leb]. apply bool_decide_eq_false_2.
    apply Qclt_not_le, (span_positive start end_); [done | done | lia].
Qed.

Lemma handleAddDeployment_spec_witness :
  handleAddDeployment "7" (mkCurrentDeployment "Werk" "22:00" "23:30") [] =
    if decide (1320 < 1410)
    then ([mkDeployment "7" "Werk" "22:00" "23:30"], emptyDeployment, None)
    else ([], mkCurrentDeployment "Werk" "22:00" "23:30", Some deploymentError).
Proof.
  apply (handleAddDeployment_spec "7" "Werk" "22:00" "23:30" 1320 1410 []);
    [discriminate | reflexivity | reflexivity].
Defined.

(** X15. The submit button is enabled for every submission the handler
    takes: whenever the validation of [handleSubmit] passes, the form
    counts as valid. *)
Theorem isFormValid_necessary (newEntry : NewEntry)
    (Hvalid : validate (ne_date newEntry) (ne_location newEntry)
                (ne_startTime newEntry) (ne_endTime newEntry) = None) :
  isFormValid newEntry = true.
Proof.
  revert Hvalid. unfold validate, isFormValid.
  destruct (Str.nonEmpty (ne_date newEntry)); [|done].
  destruct (Str.nonEmpty (ne_location newEntry)); [|done].
  destruct (isSpecialEntry (ne_location newEntry)); [done|]. cbn [negb andb orb].
  destruct (Str.nonEmpty (ne_startTime newEntry)); [|done].
  by destruct (Str.nonEmpty (ne_endTime newEntry)).
Qed.

Lemma isFormValid_necessary_witness : isFormValid officeDay = true.
Proof. apply (isFormValid_necessary officeDay). reflexivity. Defined.

(** ** Saved locations *)

(** X16. Adding a saved location keeps every location already saved
    and never makes two of them equal up to case, whatever order the
    collation puts them in. *)
Theorem handleAddSavedLocation_unique (localeCompareDe : string → string → number)
    (newSavedLocation : string) (savedLocations : list string)
    (Huniq : caseUnique savedLocations) :
  let added := (handleAddSavedLocation localeCompareDe newSavedLocation savedLocations).1 in
  caseUnique added ∧ (∀ l, l ∈ savedLocations → l ∈ added).
Proof.
  cbv zeta. unfold handleAddSavedLocation.
  destruct (Str.nonEmpty _ && negb (existsb _ _)) eqn:Hadd; cbn [fst]; [|done].
  apply andb_true_iff in Hadd as [_ Hnew%negb_true_iff].
  split.
  - unfold caseUnique. rewrite sort_perm, fmap_app. apply NoDup_app.
    split; [done|]. split; [|apply NoDup_singleton].
    intros x Hx ->%list_elem_of_singleton.
    apply list_elem_of_fmap in Hx as (l & Hl & Hin).
    apply not_true_iff_false in Hnew. apply Hnew, existsb_exists.
    exists l. split; [by apply list_elem_of_In|]. apply String.eqb_eq. done.
  - intros l Hl. rewrite sort_perm. set_solver.
Qed.

Lemma handleAddSavedLocation_unique_witness :
  caseUnique ["Büro"; "Werk"]
  ∧ caseUnique
      (handleAddSavedLocation (λ a b, Num.ofZ (Str.localeCompare a b)) " Lager "
         ["Büro"; "Werk"]).1
  ∧ (∀ l, l ∈ ["Büro"; "Werk"] →
          l ∈ (handleAddSavedLocation (λ a b, Num.ofZ (Str.localeCompare a b))
                 " Lager " ["Büro"; "Werk"]).1).
Proof.
  assert (caseUnique ["Büro"; "Werk"]) as Huniq by by_compute.
  split; [done|].
  apply (handleAddSavedLocation_unique
           (λ a b, Num.ofZ (Str.localeCompare a b)) " Lager " ["Büro"; "Werk"] Huniq).
Defined.

(** ** Removing a deployment *)

(** X19. Removing the id just given out undoes the addition of a
    deployment: when no deployment of the list has that id, add followed
    by remove gives the list back, whether the deployment was taken or
    not. *)
Theorem add_then_remove_deployment (idNow : string)
    (currentDeployment : CurrentDeployment) (deployments : list Deployment)
    (Hfresh : idNow ∉ (dep_id <$> deployments)) :
  handleRemoveDeployment idNow
    (handleAddDeployment idNow currentDeployment deployments).1.1 = deployments.
Proof.
  assert (handleRemoveDeployment idNow deployments = deployments) as Hsame.
  { unfold handleRemoveDeployment. apply filter_all.
    apply Forall_forall. intros d Hd <-. apply Hfresh.
    apply list_elem_of_fmap. eauto. }
  unfold handleAddDeployment. destruct (_ || _); cbn [fst]; [done|].
  unfold handleRemoveDeployment in *. rewrite filter_app, Hsame.
  rewrite filter_cons, decide_False by (by intros H; apply H).
  by rewrite filter_nil, app_nil_r.
Qed.

Lemma add_then_remove_deployment_witness :
  handleRemoveDeployment "7"
    (handleAddDeployment "7" (mkCurrentDeployment "Werk" "22:00" "23:30")
       [mkDeployment "a" "x" "20:00" "21:00"]).1.1
  = [mkDeployment "a" "x" "20:00" "21:00"].
Proof.
  apply (add_then_remove_deployment "7" (mkCurrentDeployment "Werk" "22:00" "23:30")
           [mkDeployment "a" "x" "20:00" "21:00"]).
  by_compute.
Defined.

(** ** The sign of the elapsed hours *)

(** X20. [calculateHours] never returns a negative number: whatever the
    two strings are, [calculateHours(start, end) < 0] is false. *)
Theorem calculateHours_not_negative (start end_ : string) :
  Num.ltb (calculateHours start end_) Num.zero = false.
Proof.
  unfold calculateHours.
  destruct (negb _ || negb _); [by_compute|].
  destruct (timeOnReferenceDay start) as [|s], (timeOnReferenceDay end_) as [|e];
    try done.
  cbn [Num.leb]. case_bool_decide; [by_compute|].
  unfold Num.sub, Num.divZ, Num.max, Fin. rewrite zero_eq.
  case_bool_decide as Hpos; cbn [Num.ltb].
  - apply bool_decide_eq_false_2. by apply Qcle_not_lt.
  - apply bool_decide_eq_false_2. by apply Qcle_not_lt.
Qed.

(** ** The pause and the validation of the form *)

(** X21. The pause appended after an entry that ends at a valid time
    would pass the validation of the entry form exactly when its date is
    not empty and it starts before 23:30: a pause appended at 23:30 or
    later is stored with no duration. *)
Theorem handleAddPause_validation (idNow : string) (entries : list Entry)
    (p : Entry) (m : Z)
    (Hadded : handleAddPause idNow entries = (entries ++ [p], None))
    (Hstart : parseHHMM (startTime p) = Some m) :
  validate (date p) (location p) (startTime p) (endTime p) = None
  ↔ date p ≠ "" ∧ m < 1410.
Proof.
  revert Hadded. unfold handleAddPause, handleAddPauseOn.
  destruct (List.find _ _) as [w|]; [|done].
  intros [= Hp%app_inv_head]. injection Hp as <-.
  cbn [date location startTime endTime] in *.
  unfold validate. rewrite <- nonEmpty_true.
  destruct (Str.nonEmpty (date w)); cbn [negb orb andb];
    [|split; [done | by intros [? _]]].
  pose proof (halfAnHourLater_parsed _ _ Hstart) as Hend.
  rewrite (parseHHMM_nonEmpty _ _ Hstart), (parseHHMM_nonEmpty _ _ Hend).
  rewrite (calculateHours_parsed _ _ m _ Hstart Hend).
  rewrite half_hour_wrap by (by eapply parseHHMM_range).
  cbn [negb orb]. destruct (decide (m < 1410)) as [Hlt|Hge].
  - rewrite decide_False by lia.
    assert (Num.leb (Fin (Qc_of_Z (m + 30 - m) / Qc_of_Z 60)) Num.zero = false)
      as ->; [|by split].
    rewrite zero_eq. unfold Fin. cbn [Num.leb]. apply bool_decide_eq_false_2.
    apply Qclt_not_le, minutes_hours_pos. lia.
  - rewrite decide_True by lia. rewrite leb_zero_zero.
    split; [done | by intros [_ ?]].
Qed.

Lemma handleAddPause_validation_witness :
  validate "2024-06-05" "Pause" "15:30" (halfAnHourLater "15:30") = None
  ↔ "2024-06-05" ≠ "" ∧ 930 < 1410.
Proof.
  apply (handleAddPause_validation "9" workWeek
           (mkEntry "9" "2024-06-05" "Pause" "15:30" (halfAnHourLater "15:30")
              None None) 930);
    reflexivity.
Defined.

(** ** Ids *)

Lemma uniqueIds_app (l1 l2 : list Entry) (e : Entry) :
  uniqueIds (l1 ++ e :: l2) →
  (id e ∉ id <$> l1) ∧ (id e ∉ id <$> l2).
Proof.
  unfold uniqueIds. rewrite fmap_app, fmap_cons.
  intros (Hl1 & Hdisj & [He Hl2]%NoDup_cons)%NoDup_app. split; [|done].
  intros Hin. apply (Hdisj _ Hin). set_solver.
Qed.

(** X22. In a collection without a repeated id, deleting the id of a
    stored entry removes that entry and nothing else: the entries before
    and after it stay, in their order. *)
Theorem handleDeleteEntry_one (e : Entry) (entries : list Entry)
    (Huniq : uniqueIds entries) (Hin : e ∈ entries) :
  ∃ l1 l2, entries = l1 ++ e :: l2 ∧ handleDeleteEntry (id e) entries = l1 ++ l2.
Proof.
  apply list_elem_of_split in Hin as (l1 & l2 & ->). exists l1, l2.
  split; [done|]. apply uniqueIds_app in Huniq as [H1 H2].
  pose proof (handleDeleteEntry_fresh _ _ H1) as E1.
  pose proof (handleDeleteEntry_fresh _ _ H2) as E2.
  unfold handleDeleteEntry in *. rewrite filter_app, filter_cons, E1, E2.
  by rewrite decide_False by (by intros H; apply H).
Qed.

Lemma handleDeleteEntry_one_witness :
  ∃ l1 l2, workWeek = l1 ++ special "4" "2024-06-05" "Krank" :: l2
           ∧ handleDeleteEntry "4" workWeek = l1 ++ l2.
Proof.
  apply (handleDeleteEntry_one (special "4" "2024-06-05" "Krank") workWeek).
  - exact workWeek_uniqueIds.
  - unfold workWeek. set_solver.
Defined.

(** X23. No write to the collection repeats an id as long as the id
    given out is not in use: a collection without a repeated id stays
    one under add, under the appended pause and under delete. *)
Theorem uniqueIds_kept (idNow id_ : string) (newEntry : NewEntry)
    (entries : list Entry)
    (Huniq : uniqueIds entries) (Hfresh : idNow ∉ (id <$> entries)) :
  uniqueIds (handleSubmit idNow newEntry entries).1
  ∧ uniqueIds (handleAddPause idNow entries).1
  ∧ uniqueIds (handleDeleteEntry id_ entries).
Proof.
  split; [|split].
  - unfold handleSubmit. destruct (validate _ _ _ _); [done|].
    unfold uniqueIds. cbn [fst]. rewrite fmap_cons. by apply NoDup_cons.
  - unfold handleAddPause, handleAddPauseOn. destruct (List.find _ _); [|done].
    unfold uniqueIds. cbn [fst]. rewrite fmap_app. apply NoDup_app.
    split; [done|]. split; [|apply NoDup_singleton].
    by intros x Hx ->%list_elem_of_singleton.
  - unfold uniqueIds, handleDeleteEntry in *.
    induction entries as [|e l IH]; [done|].
    rewrite fmap_cons in Huniq, Hfresh.
    apply NoDup_cons in Huniq as [He Hl]. apply not_elem_of_cons in Hfresh as [_ Hf].
    rewrite filter_cons. case_decide; [|by apply IH].
    rewrite fmap_cons. apply NoDup_cons. split; [|by apply IH].
    intros (x & Hid & [_ Hx]%list_elem_of_filter)%list_elem_of_fmap.
    apply He, list_elem_of_fmap. eauto.
Qed.

Lemma uniqueIds_kept_witness :
  uniqueIds (handleSubmit "9" officeDay workWeek).1
  ∧ uniqueIds (handleAddPause "9" workWeek).1
  ∧ uniqueIds (handleDeleteEntry "4" workWeek).
Proof.
  apply (uniqueIds_kept "9" "4" officeDay workWeek workWeek_uniqueIds).
  by_compute.
Defined.
